(** * pyblosxom: the entry base class and the readmore plugin

    A shallow embedding of [libs/entries/base.py] (class [EntryBase]) and of
    [Pyblosxom/plugins/readmore.py] (callback [cb_story]), with the
    properties of the two components stated and proved over it.

    Python byte strings are lists of characters, dictionaries are finite
    maps keyed by strings, and a method that mutates its object or raises
    is a function from the object to an outcome paired with the object as
    the call leaves it. *)

From Stdlib Require Import ZArith Ascii String List Lia.
From stdpp Require Import base gmap strings list pretty.

(** ** Python values *)

(** A Python 2 [str]. *)
Abbreviation pystr := (list ascii).

(** String literals of the source, as [pystr]. *)
Definition lit (s : string) : pystr := list_ascii_of_string s.

Definition newline : ascii := ascii_of_nat 10.
Definition dquote : ascii := ascii_of_nat 34.

(** The values the two modules handle: [None], integers, strings and tuples
    of integers (the time tuple of [setTime]). *)
Inductive pyval : Type :=
  | VNone
  | VInt (z : Z)
  | VStr (s : pystr)
  | VTuple (l : list Z).

Definition pyval_eqb (a b : pyval) : bool :=
  match a, b with
  | VNone, VNone => true
  | VInt x, VInt y => bool_decide (x = y)
  | VStr x, VStr y => bool_decide (x = y)
  | VTuple x, VTuple y => bool_decide (x = y)
  | _, _ => false
  end.

Definition repr_int (z : Z) : pystr := lit (pretty z).

Fixpoint join_comma (l : list pystr) : pystr :=
  match l with
  | [] => []
  | [x] => x
  | x :: l' => x ++ lit ", " ++ join_comma l'
  end.

Definition repr_tuple (l : list Z) : pystr :=
  match l with
  | [x] => lit "(" ++ repr_int x ++ lit ",)"
  | _ => lit "(" ++ join_comma (map repr_int l) ++ lit ")"
  end.

(** The builtin [str] (integers in the machine range). *)
Definition str (v : pyval) : pystr :=
  match v with
  | VNone => lit "None"
  | VInt z => repr_int z
  | VStr s => s
  | VTuple l => repr_tuple l
  end.

(** ** Exceptions and mutation *)

Inductive exn : Type :=
  | KeyError (k : string)
  | TypeError
  | ValueError.

Inductive outcome (A : Type) : Type :=
  | Return (a : A)
  | Raise (e : exn).
Arguments Return {A} a.
Arguments Raise {A} e.

(** A call on an object of type [S]: its outcome and the object afterwards.
    An exception keeps every mutation made before it was raised. *)
Definition call (S A : Type) : Type := S -> outcome A * S.

Definition ret {S A} (a : A) : call S A := fun s => (Return a, s).
Definition bind {S A B} (c : call S A) (k : A -> call S B) : call S B :=
  fun s =>
    match c s with
    | (Return a, s') => k a s'
    | (Raise e, s') => (Raise e, s')
    end.
Definition eval {S A} (o : outcome A) : call S A := fun s => (o, s).
Definition modify {S} (f : S -> S) : call S unit := fun s => (Return tt, f s).

Notation "x <- c ;; k" := (bind c (fun x => k))
  (at level 100, c at next level, right associativity).
Notation "c ;;; k" := (bind c (fun _ => k))
  (at level 100, right associativity).

(** ** [libs/entries/base.py] *)

Module Entries.

Definition CONTENT_KEY : string := "content".

Record EntryBase : Type := mkEntry {
  _data : pyval;
  _metadata : gmap string pyval
}.

Definition __init__ : EntryBase := mkEntry VNone ∅.

Definition getData (self : EntryBase) : pystr := str (_data self).

Definition setData (data : pyval) (self : EntryBase) : EntryBase :=
  mkEntry data (_metadata self).

Definition getId (self : EntryBase) : pystr := lit "".

Definition __getitem__ (key : string) (default : pyval) (self : EntryBase)
  : pyval :=
  if bool_decide (key = CONTENT_KEY) then VStr (getData self)
  else match _metadata self !! key with
       | Some v => v
       | None => default
       end.

Definition __setitem__ (key : string) (value : pyval) (self : EntryBase)
  : EntryBase :=
  mkEntry (_data self) (<[key := value]> (_metadata self)).

(** [del d[key]] on a dictionary raises [KeyError] when the key is absent. *)
Definition __delitem__ (key : string) : call EntryBase unit :=
  fun self =>
    match _metadata self !! key with
    | Some _ => (Return tt, mkEntry (_data self) (delete key (_metadata self)))
    | None => (Raise (KeyError key), self)
    end.

Definition has_key (key : string) (self : EntryBase) : bool :=
  if bool_decide (key = CONTENT_KEY) then true
  else bool_decide (is_Some (_metadata self !! key)).

(** The dictionary's keys come in the dictionary's own order. *)
Definition keys (self : EntryBase) : list string :=
  (map_to_list (_metadata self)).*1 ++ [CONTENT_KEY].

Section SetTime.

(** [time.strftime] of the platform: locale and time zone names are the
    environment's, and a tuple it does not accept raises. *)
Variable strftime : pystr -> list Z -> outcome pystr.

Definition set_formatted (key : string) (format : string)
    (timeTuple : list Z) : call EntryBase unit :=
  v <- eval (strftime (lit format) timeTuple) ;;
  modify (__setitem__ key (VStr v)).

Definition setTime (timeTuple : list Z) : call EntryBase unit :=
  modify (__setitem__ "timetuple" (VTuple timeTuple)) ;;;
  set_formatted "ti" "%H:%M" timeTuple ;;;
  set_formatted "mo" "%b" timeTuple ;;;
  set_formatted "mo_num" "%m" timeTuple ;;;
  set_formatted "da" "%d" timeTuple ;;;
  set_formatted "yr" "%Y" timeTuple ;;;
  set_formatted "fulltime" "%Y%m%d%H%M%S" timeTuple ;;;
  set_formatted "w3cdate" "%Y-%m-%dT%H:%M:%S%Z" timeTuple ;;;
  set_formatted "date" "%a, %d %b %Y" timeTuple.

End SetTime.

(** The eight derived keys with the format each is computed by. *)
Definition derived_formats : list (string * string) :=
  [ ("ti", "%H:%M"); ("mo", "%b"); ("mo_num", "%m"); ("da", "%d");
    ("yr", "%Y"); ("fulltime", "%Y%m%d%H%M%S");
    ("w3cdate", "%Y-%m-%dT%H:%M:%S%Z"); ("date", "%a, %d %b %Y") ]%string.

Definition derived_keys : list string := derived_formats.*1.

(** An instance of [strftime] for the C locale, given the names of the
    time zone: the directives [setTime] uses and [%%].  As [time.strftime]
    of Python 2 does, it wants nine fields and a year from 1900 on, takes
    a month, day or day of the year of 0 for 1, counts the weekday from
    Monday modulo 7 (-1 is Sunday), and prints no zone when the daylight
    flag is -1. *)
Definition pad2 (z : Z) : pystr :=
  if Z.ltb z 10 then lit "0" ++ repr_int z else repr_int z.

Definition month_abbr : list string :=
  [ "Jan"; "Feb"; "Mar"; "Apr"; "May"; "Jun";
    "Jul"; "Aug"; "Sep"; "Oct"; "Nov"; "Dec" ]%string.

Definition weekday_abbr : list string :=
  [ "Mon"; "Tue"; "Wed"; "Thu"; "Fri"; "Sat"; "Sun" ]%string.

Definition abbr (names : list string) (i : Z) : pystr :=
  lit (default ""%string (names !! Z.to_nat i)).

Definition in_range (lo hi z : Z) : bool := Z.leb lo z && Z.leb z hi.

Definition one_for_zero (z : Z) : Z := if Z.eqb z 0 then 1%Z else z.

Definition directive (tzname : pystr * pystr) (c : ascii) (t : list Z)
  : pystr :=
  match t with
  | [yr; mo; da; hh; mi; ss; wd; _; dst] =>
      if bool_decide (c = "H"%char) then pad2 hh
      else if bool_decide (c = "M"%char) then pad2 mi
      else if bool_decide (c = "S"%char) then pad2 ss
      else if bool_decide (c = "m"%char) then pad2 (one_for_zero mo)
      else if bool_decide (c = "d"%char) then pad2 (one_for_zero da)
      else if bool_decide (c = "Y"%char) then repr_int yr
      else if bool_decide (c = "b"%char) then
        abbr month_abbr (one_for_zero mo - 1)%Z
      else if bool_decide (c = "a"%char) then abbr weekday_abbr (wd mod 7)%Z
      else if bool_decide (c = "Z"%char) then
        (if Z.ltb dst 0 then []
         else if Z.ltb 0 dst then tzname.2 else tzname.1)
      else if bool_decide (c = "%"%char) then [c]
      else ["%"%char; c]
  | _ => []
  end.

Fixpoint expand (tzname : pystr * pystr) (pct : bool) (format : pystr)
    (t : list Z) : pystr :=
  match format with
  | [] => if pct then ["%"%char] else []
  | c :: f' =>
      if pct then directive tzname c t ++ expand tzname false f' t
      else if bool_decide (c = "%"%char) then expand tzname true f' t
      else c :: expand tzname false f' t
  end.

Definition strftime_C (tzname : pystr * pystr) (format : pystr)
    (t : list Z) : outcome pystr :=
  match t with
  | [yr; mo; da; hh; mi; ss; wd; yd; dst] =>
      if (Z.leb 1900 yr && in_range 0 12 mo && in_range 0 31 da
          && in_range 0 23 hh && in_range 0 59 mi && in_range 0 61 ss
          && Z.leb (-1) wd && in_range 0 366 yd && in_range (-1) 1 dst)%Z
      then Return (expand tzname false format t)
      else Raise ValueError
  | _ => Raise TypeError
  end.

End Entries.

(** ** The part of the [re] module the plugin uses

    A backtracking matcher in the order of Python's: alternatives left to
    right, a greedy repetition longest first, a lazy one shortest first,
    and the leftmost starting position that matches wins. *)

Module Re.

(** Compiled patterns.  Repetition is over one character class, the only
    form the plugin's pattern has. *)
Inductive regex : Type :=
  | Eps
  | Chr (p : ascii -> bool)
  | Seq (r1 r2 : regex)
  | Alt (r1 r2 : regex)
  | Star (greedy : bool) (p : ascii -> bool)
  | Group (n : nat) (r : regex).

Definition Plus (p : ascii -> bool) : regex := Seq (Chr p) (Star true p).

(** Character classes: [c], [.] (no DOTALL flag), [[^c]]. *)
Definition is_char (c : ascii) : ascii -> bool := fun x => bool_decide (x = c).
Definition dot : ascii -> bool := fun x => negb (bool_decide (x = newline)).
Definition not_char (c : ascii) : ascii -> bool :=
  fun x => negb (bool_decide (x = c)).

(** A run of ordinary characters. *)
Fixpoint lits (s : pystr) : regex :=
  match s with
  | [] => Eps
  | c :: s' => Seq (Chr (is_char c)) (lits s')
  end.

(** The characters with a meaning of their own in pattern source. *)
Definition special : pystr := lit ".^$*+?{}[]\|()".

Definition ordinary (c : ascii) : bool := negb (bool_decide (c ∈ special)).

(** Members of a character class: single characters and ranges, negated
    by a leading [^]. *)
Definition add_char (c : ascii) (set : ascii -> bool) : ascii -> bool :=
  fun x => set x || bool_decide (x = c).

Definition add_range (lo hi : ascii) (set : ascii -> bool) : ascii -> bool :=
  fun x => set x
           || (Nat.leb (nat_of_ascii lo) (nat_of_ascii x)
               && Nat.leb (nat_of_ascii x) (nat_of_ascii hi)).

Definition member (neg : bool) (set : ascii -> bool) : ascii -> bool :=
  fun x => if neg then negb (set x) else set x.

(** Where the parser stands: between atoms, with the last single-character
    atom still open to a repetition, or inside a character class (just
    after [[], after [[^], between items, after an item, after an item and
    a dash). *)
Inductive parse_state : Type :=
  | Top (pending : option (ascii -> bool))
  | ClassOpen
  | ClassFirst (neg : bool)
  | ClassItem (neg : bool) (set : ascii -> bool)
  | ClassThis (neg : bool) (set : ascii -> bool) (this : ascii)
  | ClassDash (neg : bool) (set : ascii -> bool) (this : ascii).

Definition flush (k : regex -> regex) (pending : option (ascii -> bool))
  : regex -> regex :=
  fun r =>
    match pending with
    | Some p => k (Seq (Chr p) r)
    | None => k r
    end.

(** The parser of pattern source, for the part of the pattern language
    made of ordinary characters, [.], character classes, [|] and the
    repetitions [*], [+], [?] (greedy or lazy) of a single-character atom.
    [k] builds the alternative being read from what follows it.  [None]:
    the source has a parenthesis, a brace, an anchor or a backslash, or is
    not a pattern ([re.error]); such source is not interpreted. *)
Fixpoint parse (k : regex -> regex) (st : parse_state) (s : pystr)
  : option regex :=
  match s with
  | [] =>
      match st with
      | Top pending => Some (flush k pending Eps)
      | _ => None
      end
  | c :: s' =>
      match st with
      | Top pending =>
          if ordinary c then parse (flush k pending) (Top (Some (is_char c))) s'
          else if bool_decide (c = "."%char) then
            parse (flush k pending) (Top (Some dot)) s'
          else if bool_decide (c = "["%char) then
            parse (flush k pending) ClassOpen s'
          else if bool_decide (c = "|"%char) then
            match parse (fun r => r) (Top None) s' with
            | Some r => Some (Alt (flush k pending Eps) r)
            | None => None
            end
          else
            match pending with
            | None => None
            | Some p =>
                let lazy :=
                  match s' with
                  | x :: _ => bool_decide (x = "?"%char)
                  | [] => false
                  end in
                let rest :=
                  match s' with
                  | x :: s'' => if bool_decide (x = "?"%char) then s'' else s'
                  | [] => s'
                  end in
                if bool_decide (c = "*"%char) then
                  parse (fun r => k (Seq (Star (negb lazy) p) r)) (Top None)
                    rest
                else if bool_decide (c = "+"%char) then
                  parse (fun r => k (Seq (Seq (Chr p) (Star (negb lazy) p)) r))
                    (Top None) rest
                else if bool_decide (c = "?"%char) then
                  parse (fun r =>
                           k (Seq (if lazy then Alt Eps (Chr p)
                                   else Alt (Chr p) Eps) r))
                    (Top None) rest
                else None
            end
      | ClassOpen =>
          if bool_decide (c = "^"%char) then parse k (ClassFirst true) s'
          else if bool_decide (c = "\"%char) then None
          else parse k (ClassThis false (fun _ => false) c) s'
      | ClassFirst neg =>
          if bool_decide (c = "\"%char) then None
          else parse k (ClassThis neg (fun _ => false) c) s'
      | ClassItem neg set =>
          if bool_decide (c = "]"%char) then
            parse k (Top (Some (member neg set))) s'
          else if bool_decide (c = "\"%char) then None
          else parse k (ClassThis neg set c) s'
      | ClassThis neg set this =>
          if bool_decide (c = "-"%char) then parse k (ClassDash neg set this) s'
          else if bool_decide (c = "]"%char) then
            parse k (Top (Some (member neg (add_char this set)))) s'
          else if bool_decide (c = "\"%char) then None
          else parse k (ClassThis neg (add_char this set) c) s'
      | ClassDash neg set this =>
          if bool_decide (c = "]"%char) then
            parse k
              (Top (Some (member neg
                            (add_char "-"%char (add_char this set))))) s'
          else if bool_decide (c = "\"%char) then None
          else if Nat.leb (nat_of_ascii this) (nat_of_ascii c) then
            parse k (ClassItem neg (add_range this c set)) s'
          else None
      end
  end.

(** What a pattern fragment spliced between parentheses compiles to.  A
    fragment [parse] reads has its classes closed and no parenthesis of
    its own, so that ['(' + src + ')'] is one group around it. *)
Definition fragment (src : pystr) : option regex :=
  parse (fun r => r) (Top None) src.

(** Spans of the groups that took part, most recent first. *)
Definition spans : Type := list (nat * (nat * nat)).

Fixpoint span_of (n : nat) (g : spans) : option (nat * nat) :=
  match g with
  | [] => None
  | (m, sp) :: g' => if bool_decide (m = n) then Some sp else span_of n g'
  end.

Section Run.
Context {R : Type}.

Fixpoint star_lazy (p : ascii -> bool) (k : pystr -> nat -> option R)
    (s : pystr) (i : nat) : option R :=
  match k s i with
  | Some r => Some r
  | None =>
      match s with
      | c :: s' => if p c then star_lazy p k s' (S i) else None
      | [] => None
      end
  end.

Fixpoint star_greedy (p : ascii -> bool) (k : pystr -> nat -> option R)
    (s : pystr) (i : nat) : option R :=
  match s with
  | c :: s' =>
      if p c then
        match star_greedy p k s' (S i) with
        | Some r => Some r
        | None => k s i
        end
      else k s i
  | [] => k s i
  end.

(** [run r s i g k]: match [r] at offset [i], where [s] is the text from
    there on, and hand what is left to [k]; [None] once every way of
    matching has been tried. *)
Fixpoint run (r : regex) (s : pystr) (i : nat) (g : spans)
    (k : pystr -> nat -> spans -> option R) : option R :=
  match r with
  | Eps => k s i g
  | Chr p =>
      match s with
      | c :: s' => if p c then k s' (S i) g else None
      | [] => None
      end
  | Seq r1 r2 => run r1 s i g (fun s' i' g' => run r2 s' i' g' k)
  | Alt r1 r2 =>
      match run r1 s i g k with
      | Some x => Some x
      | None => run r2 s i g k
      end
  | Star true p => star_greedy p (fun s' i' => k s' i' g) s i
  | Star false p => star_lazy p (fun s' i' => k s' i' g) s i
  | Group n r' =>
      run r' s i g (fun s' i' g' => k s' i' ((n, (i, i')) :: g'))
  end.
End Run.

Record MatchObject : Type := mkMatch {
  subject : pystr;
  whole : nat * nat;
  groups : spans
}.

Definition match_at (r : regex) (subj s : pystr) (i : nat)
  : option MatchObject :=
  run r s i [] (fun _ j g => Some (mkMatch subj (i, j) g)).

Fixpoint search_from (r : regex) (subj s : pystr) (i : nat)
  : option MatchObject :=
  match match_at r subj s i with
  | Some m => Some m
  | None =>
      match s with
      | _ :: s' => search_from r subj s' (S i)
      | [] => None
      end
  end.

(** [re.search(r, s)] for a compiled [r]. *)
Definition search (r : regex) (s : pystr) : option MatchObject :=
  search_from r s s 0.

(** [m.start(n)]: -1 for a group that took no part. *)
Definition start (m : MatchObject) (n : nat) : Z :=
  match span_of n (groups m) with
  | Some (a, _) => Z.of_nat a
  | None => (-1)%Z
  end.

(** [m.group(n)]: [None] for a group that took no part. *)
Definition group (m : MatchObject) (n : nat) : pyval :=
  match span_of n (groups m) with
  | Some (a, b) => VStr (take (b - a) (drop a (subject m)))
  | None => VNone
  end.

(** Length of the match of [r] at the head of [s]. *)
Definition match_len (r : regex) (s : pystr) : option nat :=
  run r s 0 [] (fun _ j _ => Some j).

(** The scan of [re.sub]: [skip] characters of the current match are still
    to be dropped; [adj] tells that a match ended where the scan stands (an
    empty match there is not replaced). *)
Fixpoint sub_scan (r : regex) (repl s : pystr) (skip : nat) (adj : bool)
  : pystr :=
  match skip with
  | S n =>
      match s with
      | _ :: s' => sub_scan r repl s' n adj
      | [] => []
      end
  | O =>
      match match_len r s with
      | Some (S n) =>
          repl ++ match s with
                  | _ :: s' => sub_scan r repl s' n true
                  | [] => []
                  end
      | Some O =>
          (if adj then [] else repl)
          ++ match s with
             | c :: s' => c :: sub_scan r repl s' 0 false
             | [] => []
             end
      | None =>
          match s with
          | c :: s' => c :: sub_scan r repl s' 0 false
          | [] => []
          end
      end
  end.

(** [re.sub(r, repl, s)] for a compiled [r] and a replacement without
    backslashes. *)
Definition sub (r : regex) (repl s : pystr) : pystr :=
  sub_scan r repl s 0 false.

End Re.

(** ** [Pyblosxom/plugins/readmore.py] *)

Module Readmore.

Definition READMORE_BREAKPOINT : pystr := lit "BREAK".

Definition READMORE_TEMPLATE : pystr :=
  lit "<p class=" ++ [dquote] ++ lit "readmore" ++ [dquote] ++ lit ">"
  ++ lit "<a href=" ++ [dquote] ++ lit "%(url)s" ++ [dquote]
  ++ lit ">read more after the break...</a>"
  ++ lit "</p>".

(** [d.get(key, default)] and [d[key]] on a dictionary. *)
Definition get (d : gmap string pyval) (key : string) (default : pyval)
  : pyval :=
  match d !! key with
  | Some v => v
  | None => default
  end.

Definition item (d : gmap string pyval) (key : string) : outcome pyval :=
  match d !! key with
  | Some v => Return v
  | None => Raise (KeyError key)
  end.

(** An operand that has to be a string; anything else is a [TypeError]. *)
Definition as_str (v : pyval) : outcome pystr :=
  match v with
  | VStr s => Return s
  | _ => Raise TypeError
  end.

(** [s[:k]] *)
Definition slice_to (s : pystr) (k : Z) : pystr :=
  if Z.ltb k 0 then take (Z.to_nat (Z.of_nat (length s) + k)) s
  else take (Z.to_nat k) s.

(** [<[ ]*?[^/].+|[\n]], compiled: what ends the text after the marker. *)
Definition delimiter : Re.regex :=
  Re.Alt
    (Re.Seq (Re.Chr (Re.is_char "<"))
       (Re.Seq (Re.Star false (Re.is_char " "))
          (Re.Seq (Re.Chr (Re.not_char "/")) (Re.Plus Re.dot))))
    (Re.Chr (Re.is_char newline)).

(** ['(' + breakpoint + ')(.*?)(<[ ]*?[^/].+|[\n])'], compiled, for the
    compiled breakpoint fragment [bp]. *)
Definition story_pattern (bp : Re.regex) : Re.regex :=
  Re.Seq (Re.Group 1 bp)
    (Re.Seq (Re.Group 2 (Re.Star false Re.dot)) (Re.Group 3 delimiter)).

(** ['%s/%s.%s' % (base_url, file_path, flavour)] *)
Definition story_url (base_url file_path flavour : pyval) : pystr :=
  str base_url ++ lit "/" ++ str file_path ++ lit "." ++ str flavour.

(** The dictionary the link template is formatted with. *)
Definition link_vars (base_url file_path flavour : pyval)
  : gmap string pyval :=
  <["url" := VStr (story_url base_url file_path flavour)]>
    (<["base_url" := base_url]>
       (<["file_path" := file_path]>
          (<["flavour" := flavour]> ∅))).

Section Story.

(** The string formatting operator, [template % mapping]. *)
Variable format : pystr -> gmap string pyval -> outcome pystr.

(** Lines 223-235: the link for the entry, or the exception one of the
    lookups or the formatting raises.  The entry is read, not written. *)
Definition render_link (config data : gmap string pyval)
    (template : pyval) : call (gmap string pyval) pystr :=
  base_url <- eval (item config "base_url") ;;
  file_path <- (fun entry => (item entry "file_path", entry)) ;;
  let flavour :=
    get data "flavour" (get config "default_flavour" (VStr (lit "html"))) in
  tpl <- eval (as_str template) ;;
  eval (format tpl (link_vars base_url file_path flavour)).

(** The callback from the search on: [rb] is the compiled breakpoint,
    [body] the value of [entry["body"]].  The entry is the object the
    call mutates. *)
Definition split_body (config data : gmap string pyval)
    (rb : Re.regex) (template body : pyval)
  : call (gmap string pyval) unit :=
  text <- eval (as_str body) ;;
  match Re.search (story_pattern rb) text with
  | None => ret tt
  | Some m =>
      bl_type <- eval (item data "bl_type") ;;
      if pyval_eqb bl_type (VStr (lit "file")) then
        modify (<["body" := VStr (Re.sub rb [] text)]>)
      else
        link <- render_link config data template ;;
        modify (<["just_summary" := VInt 1]>) ;;;
        modify (<["body" :=
                   VStr (slice_to text (Re.start m 1) ++ link
                         ++ str (Re.group m 2))]>)
  end.

(** [cb_story], with [args["entry"]] as the object and the request's
    configuration and data dictionaries as arguments.  [None] when the
    configured breakpoint is pattern source that [Re.fragment] does not
    interpret. *)
Definition cb_story (config data entry : gmap string pyval)
  : option (outcome unit * gmap string pyval) :=
  match entry !! "body" with
  | None => Some (Return tt, entry)
  | Some body =>
      let breakpoint :=
        get config "readmore_breakpoint" (VStr READMORE_BREAKPOINT) in
      let template :=
        get config "readmore_template" (VStr READMORE_TEMPLATE) in
      match as_str breakpoint with
      | Raise e => Some (Raise e, entry)
      | Return src =>
          match Re.fragment src with
          | None => None
          | Some rb => Some (split_body config data rb template body entry)
          end
      end
  end.

End Story.

(** An instance of the formatting operator for templates made of
    [%(name)s] and [%%]: the name is looked up when its closing parenthesis
    is read and a missing one raises [KeyError]; a directive of another
    form raises [ValueError]. *)
Inductive format_state : Type :=
  | Plain
  | Percent
  | Name (acc : pystr) (depth : nat)
  | Conversion (v : pyval).

Definition emit (s : pystr) (o : outcome pystr) : outcome pystr :=
  match o with
  | Return r => Return (s ++ r)
  | Raise e => Raise e
  end.

Fixpoint format_scan (st : format_state) (t : pystr)
    (vars : gmap string pyval) : outcome pystr :=
  match t with
  | [] =>
      match st with
      | Plain => Return []
      | _ => Raise ValueError
      end
  | c :: t' =>
      match st with
      | Plain =>
          if bool_decide (c = "%"%char) then format_scan Percent t' vars
          else emit [c] (format_scan Plain t' vars)
      | Percent =>
          if bool_decide (c = "%"%char) then
            emit [c] (format_scan Plain t' vars)
          else if bool_decide (c = "("%char) then
            format_scan (Name [] 0) t' vars
          else Raise ValueError
      | Name acc depth =>
          if bool_decide (c = "("%char) then
            format_scan (Name (acc ++ [c]) (S depth)) t' vars
          else if bool_decide (c = ")"%char) then
            match depth with
            | S d => format_scan (Name (acc ++ [c]) d) t' vars
            | O =>
                match vars !! string_of_list_ascii acc with
                | Some v => format_scan (Conversion v) t' vars
                | None => Raise (KeyError (string_of_list_ascii acc))
                end
            end
          else format_scan (Name (acc ++ [c]) depth) t' vars
      | Conversion v =>
          if bool_decide (c = "s"%char) then
            emit (str v) (format_scan Plain t' vars)
          else Raise ValueError
      end
  end.

Definition format_s (t : pystr) (vars : gmap string pyval) : outcome pystr :=
  format_scan Plain t vars.

(** [verify_installation]: the messages handed to [pwrap] (of
    [Pyblosxom.tools], which prints them) and the value returned. *)
Definition verify_installation (config : gmap string pyval)
  : list pystr * bool :=
  (flat_map
     (fun mem : string =>
        if bool_decide (is_Some (config !! mem)) then []
        else [lit "missing optional config property '" ++ lit mem
              ++ lit "'"])
     ["readmore_template"; "readmore_breakpoint"]%string,
   true).

(** A docutils [nodes.raw(rawsource, text, format=...)]. *)
Record raw_node : Type := mkRaw {
  rawsource : pystr;
  text : pystr;
  node_format : pystr
}.

(** [Break.run] for the breakpoint [cb_start] took from the
    configuration: [breakpoint + "\n"] needs a string. *)
Definition Break_run (breakpoint : pyval) : outcome (list raw_node) :=
  match as_str breakpoint with
  | Return s => Return [mkRaw [] (s ++ [newline]) (lit "html")]
  | Raise e => Raise e
  end.

(** [cb_start]: the directive it registers, by name with what its [run]
    gives; nothing when docutils cannot be imported. *)
Definition cb_start (docutils : bool) (config : gmap string pyval)
  : option (string * outcome (list raw_node)) :=
  if docutils then
    Some ("break"%string,
          Break_run (get config "readmore_breakpoint"
                       (VStr READMORE_BREAKPOINT)))
  else None.

End Readmore.

(** ** Markers in a body *)

(** The number of positions of [s] at which [bp] begins. *)
Fixpoint occurrences (bp s : pystr) : nat :=
  match s with
  | [] => if bool_decide (bp = []) then 1 else 0
  | _ :: s' =>
      ((if bool_decide (bp `prefix_of` s) then 1 else 0)
       + occurrences bp s')
  end.

(** [stripped bp s n r]: reading [s] from the left there are [n]
    occurrences of [bp], each beginning after the one before it has ended,
    and [r] is [s] without them. *)
Inductive stripped (bp : pystr) : pystr -> nat -> pystr -> Prop :=
  | stripped_none s :
      occurrences bp s = 0 -> stripped bp s 0 s
  | stripped_next pre rest n r :
      occurrences bp (pre ++ bp) = 1 ->
      stripped bp rest n r ->
      stripped bp (pre ++ bp ++ rest) (S n) (pre ++ r).

(** Text that stays on its line and in which every [<] begins a closing
    tag [</]. *)
Fixpoint closing_text (t : pystr) : bool :=
  match t with
  | [] => true
  | c :: t' =>
      negb (bool_decide (c = newline))
      && (if bool_decide (c = "<"%char) then
            match t' with
            | x :: _ => bool_decide (x = "/"%char)
            | [] => false
            end
          else true)
      && closing_text t'
  end.

(** Text without a newline and without [<]: nothing in it can end the
    text after a marker. *)
Definition unbroken (s : pystr) : bool :=
  forallb (fun c => negb (bool_decide (c = newline))
                    && negb (bool_decide (c = "<"%char))) s.

(** The render mode is the listing one: [bl_type] is set and is not
    ['file']. *)
Definition listing_mode (data : gmap string pyval) : bool :=
  match data !! "bl_type" with
  | Some ty => negb (pyval_eqb ty (VStr (lit "file")))
  | None => false
  end.

Definition single_mode (data : gmap string pyval) : bool :=
  match data !! "bl_type" with
  | Some ty => pyval_eqb ty (VStr (lit "file"))
  | None => false
  end.

(** The breakpoint the configuration gives, when it is a string. *)
Definition configured_breakpoint (config : gmap string pyval)
  : option pystr :=
  match Readmore.get config "readmore_breakpoint"
          (VStr Readmore.READMORE_BREAKPOINT) with
  | VStr bp => Some bp
  | _ => None
  end.

Definition configured_template (config : gmap string pyval) : pyval :=
  Readmore.get config "readmore_template" (VStr Readmore.READMORE_TEMPLATE).

(** ** Writes to an entry's metadata *)

(** The calls that write to the metadata map.  A call that raises leaves
    the entry as it stands at the exception and the next call goes on from
    there. *)
Inductive write : Type :=
  | Store (key : string) (value : pyval)
  | Remove (key : string)
  | Stamp (timeTuple : list Z).

Definition apply_write (strftime : pystr -> list Z -> outcome pystr)
    (self : Entries.EntryBase) (w : write) : Entries.EntryBase :=
  match w with
  | Store key value => Entries.__setitem__ key value self
  | Remove key => (Entries.__delitem__ key self).2
  | Stamp timeTuple => (Entries.setTime strftime timeTuple self).2
  end.

Definition apply_writes (strftime : pystr -> list Z -> outcome pystr)
    (ws : list write) (self : Entries.EntryBase) : Entries.EntryBase :=
  fold_left (apply_write strftime) ws self.

(** [strftime] accepts the instant: each of the eight formats succeeds. *)
Definition accepts (strftime : pystr -> list Z -> outcome pystr)
    (timeTuple : list Z) : bool :=
  forallb (fun kf : string * string =>
             match strftime (lit kf.2) timeTuple with
             | Return _ => true
             | Raise _ => false
             end) Entries.derived_formats.

Definition formatted (strftime : pystr -> list Z -> outcome pystr)
    (format : string) (timeTuple : list Z) : pyval :=
  match strftime (lit format) timeTuple with
  | Return v => VStr v
  | Raise _ => VNone
  end.

(** The fields of an instant: the tuple itself and the eight strings
    derived from it. *)
Definition time_fields (strftime : pystr -> list Z -> outcome pystr)
    (timeTuple : list Z) : gmap string pyval :=
  <["timetuple" := VTuple timeTuple]>
    (list_to_map
       (map (fun kf : string * string =>
               (kf.1, formatted strftime kf.2 timeTuple))
          Entries.derived_formats)).

(** The spans of the three groups when the match begins at [i], the marker
    has length [b] and the text up to the newline length [t]. *)
Definition story_groups (i b t : nat) : Re.spans :=
  [ (3, (i + b + t, S (i + b + t)));
    (2, (i + b, i + b + t));
    (1, (i, i + b)) ].

(** ** Example requests and entries *)

Definition utc : pystr * pystr := (lit "UTC", lit "UTC").
Definition sunday_afternoon : list Z :=
  [2004; 3; 7; 14; 5; 9; 6; 67; 0]%Z.
Definition monday_morning : list Z :=
  [2011; 11; 7; 8; 30; 0; 0; 311; 0]%Z.

Definition example_config : gmap string pyval :=
  {[ "base_url" := VStr (lit "http://example.org");
     "readmore_template" := VStr (lit "[%(url)s]") ]}.
Definition index_data : gmap string pyval :=
  {[ "bl_type" := VStr (lit "dir") ]}.
Definition file_data : gmap string pyval :=
  {[ "bl_type" := VStr (lit "file") ]}.
Definition entry_of (body : pystr) : gmap string pyval :=
  {[ "body" := VStr body; "file_path" := VStr (lit "entries/first") ]}.
Definition example_link : pystr :=
  lit "[http://example.org/entries/first.html]".
Definition two_markers_body : pystr :=
  lit "intro BREAK" ++ newline :: lit "more BREAK end" ++ [newline].
Definition two_markers_stripped : pystr :=
  lit "intro " ++ newline :: lit "more  end" ++ [newline].

(** Markers that are pattern source with a meaning of its own. *)
Definition class_marker_config : gmap string pyval :=
  <["readmore_breakpoint" := VStr (lit "[BREAK]")]> example_config.
Definition alternation_config : gmap string pyval :=
  <["readmore_breakpoint" := VStr (lit "a|b")]> example_config.
Definition class_marker_body : pystr :=
  lit "A story" ++ newline :: lit "[BREAK]" ++ newline :: lit "more"
  ++ [newline].
Definition class_marker_tag_body : pystr :=
  lit "A <p>[BREAK]</p>" ++ newline :: lit "more" ++ [newline].

(** * Properties of [EntryBase] *)

Section EntryFacts.
Import Entries.

Variable strftime : pystr -> list Z -> outcome pystr.

Lemma set_formatted_data key format t e :
  _data (set_formatted strftime key format t e).2 = _data e.
Proof.
  unfold set_formatted, bind, eval, modify.
  destruct (strftime (lit format) t); reflexivity.
Qed.

Lemma setTime_data t e : _data (setTime strftime t e).2 = _data e.
Proof.
  unfold setTime, set_formatted, bind, eval, modify. simpl.
  repeat match goal with
         | |- context [strftime ?f t] => destruct (strftime f t); simpl
         end; reflexivity.
Qed.

Lemma delitem_data key e : _data (__delitem__ key e).2 = _data e.
Proof. unfold __delitem__. destruct (_metadata e !! key); reflexivity. Qed.

Lemma apply_write_data e w : _data (apply_write strftime e w) = _data e.
Proof.
  destruct w; simpl.
  - reflexivity.
  - apply delitem_data.
  - apply setTime_data.
Qed.

Lemma apply_writes_data ws e : _data (apply_writes strftime ws e) = _data e.
Proof.
  unfold apply_writes. revert e.
  induction ws as [|w ws IH]; intros e; simpl; [reflexivity|].
  rewrite IH. apply apply_write_data.
Qed.

End EntryFacts.

Section EntryClaims.
Import Entries.

Variable strftime : pystr -> list Z -> outcome pystr.

Lemma time_fields_dom t :
  dom (time_fields strftime t)
  = {["timetuple"]} ∪ list_to_set derived_keys.
Proof.
  unfold time_fields, derived_keys. simpl.
  rewrite !dom_insert_L, dom_empty_L. set_solver.
Qed.

Lemma time_fields_shadow t1 t2 (m : gmap string pyval) :
  time_fields strftime t2 ∪ (time_fields strftime t1 ∪ m)
  = time_fields strftime t2 ∪ m.
Proof.
  apply map_eq; intros k. rewrite !lookup_union.
  destruct (time_fields strftime t2 !! k) as [v|] eqn:E2.
  - destruct (time_fields strftime t1 !! k), (m !! k); reflexivity.
  - assert (time_fields strftime t1 !! k = None) as ->.
    { apply not_elem_of_dom. rewrite time_fields_dom.
      rewrite <- (time_fields_dom t2). by apply not_elem_of_dom. }
    destruct (m !! k); reflexivity.
Qed.

Lemma setTime_accepted t e :
  accepts strftime t = true ->
  setTime strftime t e
  = (Return tt, mkEntry (_data e) (time_fields strftime t ∪ _metadata e)).
Proof.
  unfold accepts, time_fields, formatted. simpl. intros H.
  unfold setTime, set_formatted, bind, eval, modify, __setitem__. simpl.
  repeat match goal with
         | _ : context [strftime ?f t] |- _ =>
             destruct (strftime f t); simpl in *; [|discriminate]
         end.
  f_equal. f_equal.
  apply map_eq; intros k. rewrite lookup_union.
  rewrite !lookup_insert, lookup_empty.
  repeat case_decide; subst; try discriminate; try reflexivity;
    match goal with
    | |- context [_metadata e !! ?x] => destruct (_metadata e !! x)
    end; reflexivity.
Qed.

End EntryClaims.

Lemma count_NoDup (x : string) (l : list string) :
  NoDup l ->
  length (filter (.= x) l) = if bool_decide (x ∈ l) then 1 else 0.
Proof.
  induction 1 as [|y l Hy Hl IH].
  - reflexivity.
  - rewrite filter_cons. destruct (decide (y = x)) as [->|Hne].
    + simpl. rewrite IH.
      rewrite (bool_decide_eq_false_2 (x ∈ l)) by assumption.
      rewrite bool_decide_eq_true_2 by left. reflexivity.
    + rewrite IH.
      rewrite (bool_decide_ext (x ∈ y :: l) (x ∈ l)); [reflexivity|].
      rewrite elem_of_cons. split; [|by right].
      intros [E|?]; [by subst|assumption].
Qed.

Lemma elem_of_map_keys (m : gmap string pyval) (k : string) :
  k ∈ (map_to_list m).*1 <-> is_Some (m !! k).
Proof.
  rewrite list_elem_of_fmap. split.
  - intros [[k' v] [-> H]]. apply elem_of_map_to_list in H. eauto.
  - intros [v H]. exists (k, v). split; [reflexivity|].
    by apply elem_of_map_to_list.
Qed.

(** C1 (as amended): for an instant [strftime] accepts, [setTime] stores
    the time tuple itself under ["timetuple"] together with the eight
    derived strings, and touches no other key and not the content; a
    second call with another instant leaves all nine keys with the values
    of the new instant, whatever the first call stored. *)
Theorem setTime_stores_nine_fields
    (strftime : pystr -> list Z -> outcome pystr) (t1 t2 : list Z)
    (e : Entries.EntryBase) :
  accepts strftime t1 = true ->
  accepts strftime t2 = true ->
  dom (time_fields strftime t2)
  = {["timetuple"]} ∪ list_to_set Entries.derived_keys
  /\ (forall key format, (key, format) ∈ Entries.derived_formats ->
        exists v, strftime (lit format) t2 = Return v
                  /\ time_fields strftime t2 !! key = Some (VStr v))
  /\ time_fields strftime t2 !! "timetuple" = Some (VTuple t2)
  /\ Entries.setTime strftime t2 e
     = (Return tt,
        Entries.mkEntry (Entries._data e)
          (time_fields strftime t2 ∪ Entries._metadata e))
  /\ Entries.setTime strftime t2 (Entries.setTime strftime t1 e).2
     = (Return tt,
        Entries.mkEntry (Entries._data e)
          (time_fields strftime t2 ∪ Entries._metadata e)).
Proof.
  intros H1 H2. split; [apply time_fields_dom|].
  split.
  { intros key format Hin. pose proof H2 as Hacc.
    unfold accepts in Hacc. rewrite forallb_forall in Hacc.
    specialize (Hacc (key, format)). simpl in Hacc.
    assert (In (key, format) Entries.derived_formats) as HIn
      by (by apply list_elem_of_In).
    specialize (Hacc HIn).
    destruct (strftime (lit format) t2) as [v|] eqn:E; [|discriminate].
    exists v. split; [reflexivity|].
    unfold time_fields, Entries.derived_formats in *. simpl.
    unfold formatted.
    simpl in HIn.
    repeat (destruct HIn as [HIn|HIn];
            [injection HIn as <- <-; rewrite E; reflexivity|]).
    destruct HIn. }
  split; [reflexivity|].
  split; [by apply setTime_accepted|].
  rewrite (setTime_accepted strftime t1 e H1). simpl.
  rewrite setTime_accepted by assumption. simpl.
  rewrite time_fields_shadow. reflexivity.
Qed.

Lemma setTime_stores_nine_fields_example :
  accepts (Entries.strftime_C utc) sunday_afternoon = true
  /\ accepts (Entries.strftime_C utc) monday_morning = true
  /\ Entries.setTime (Entries.strftime_C utc) monday_morning
    (Entries.setTime (Entries.strftime_C utc) sunday_afternoon
       Entries.__init__).2
  = (Return tt,
     Entries.mkEntry VNone
       (time_fields (Entries.strftime_C utc) monday_morning ∪ ∅)).
Proof.
  split; [reflexivity|]. split; [reflexivity|].
  apply (setTime_stores_nine_fields (Entries.strftime_C utc)
           sunday_afternoon monday_morning Entries.__init__);
    reflexivity.
Defined.

(** C1 (as stated) fails: [setTime] also writes the key ["timetuple"],
    which is none of the eight derived keys. *)
Lemma setTime_writes_timetuple :
  ~ (forall (strftime : pystr -> list Z -> outcome pystr) (t : list Z)
       (e : Entries.EntryBase) (k : string),
        k ∉ Entries.derived_keys ->
        Entries._metadata (Entries.setTime strftime t e).2 !! k
        = Entries._metadata e !! k).
Proof.
  intros H.
  specialize (H (Entries.strftime_C utc) sunday_afternoon Entries.__init__
                "timetuple").
  assert ("timetuple" ∉ Entries.derived_keys) as Hk.
  { rewrite list_elem_of_In. simpl. intuition discriminate. }
  specialize (H Hk). vm_compute in H. discriminate H.
Qed.

(** C3 (as amended): [keys()] lists the reserved content key once when the
    metadata map holds no entry under it, which is so when it was never
    written through the setter, and twice when the map holds one. *)
Theorem keys_content_count (e : Entries.EntryBase) :
  length (filter (.= Entries.CONTENT_KEY) (Entries.keys e))
  = if bool_decide (is_Some (Entries._metadata e !! Entries.CONTENT_KEY))
    then 2 else 1.
Proof.
  unfold Entries.keys. rewrite filter_app, length_app.
  rewrite count_NoDup by apply NoDup_fst_map_to_list.
  rewrite (bool_decide_ext _ _ (elem_of_map_keys _ _)).
  destruct (bool_decide _); reflexivity.
Qed.

(** C3 (as stated) fails: after the reserved key was written through the
    setter, [keys()] lists it twice. *)
Lemma keys_content_twice :
  ~ (forall e : Entries.EntryBase,
        length (filter (.= Entries.CONTENT_KEY) (Entries.keys e)) = 1).
Proof.
  intros H.
  specialize (H (Entries.__setitem__ Entries.CONTENT_KEY (VStr (lit "text"))
                   Entries.__init__)).
  vm_compute in H. discriminate H.
Qed.

(** C7: after any sequence of metadata writes, writes of the reserved key
    included, reading the reserved key through the item accessor gives what
    [getData] gives, and that is what it gave before the writes. *)
Theorem getitem_content_is_getData
    (strftime : pystr -> list Z -> outcome pystr) (ws : list write)
    (e : Entries.EntryBase) (default : pyval) :
  Entries.__getitem__ Entries.CONTENT_KEY default (apply_writes strftime ws e)
  = VStr (Entries.getData (apply_writes strftime ws e))
  /\ Entries.getData (apply_writes strftime ws e) = Entries.getData e.
Proof.
  split.
  - reflexivity.
  - unfold Entries.getData. rewrite apply_writes_data. reflexivity.
Qed.

(** C8: deleting a key succeeds exactly when the metadata map holds it,
    and then removes that key alone; when the map does not hold it the
    call raises [KeyError] and leaves the entry as it was. *)
Theorem delitem_present_or_KeyError (key : string) (e : Entries.EntryBase) :
  ((Entries.__delitem__ key e).1 = Return tt
   <-> is_Some (Entries._metadata e !! key))
  /\ (is_Some (Entries._metadata e !! key) ->
      (Entries.__delitem__ key e).2
      = Entries.mkEntry (Entries._data e) (delete key (Entries._metadata e)))
  /\ (Entries._metadata e !! key = None ->
      Entries.__delitem__ key e = (Raise (KeyError key), e)).
Proof.
  unfold Entries.__delitem__.
  destruct (Entries._metadata e !! key) as [v|] eqn:E; simpl.
  - split; [split; eauto|]. split; [reflexivity|discriminate].
  - split; [split; [discriminate|intros [? ?]; discriminate]|].
    split; [intros [? ?]; discriminate|reflexivity].
Qed.

(** C9: on a freshly constructed entry [getData] returns the string
    ["None"]. *)
Theorem getData_fresh_is_None :
  Entries.getData Entries.__init__ = lit "None".
Proof. reflexivity. Qed.

(** * The parser and the matcher on markers without special characters *)

Section Literal.
Context {R : Type}.
Implicit Types (k : pystr -> nat -> Re.spans -> option R).

Lemma run_lits_app bp s i g k :
  Re.run (Re.lits bp) (bp ++ s) i g k = k s (i + length bp) g.
Proof.
  revert i. induction bp as [|c bp IH]; intros i; simpl.
  - by rewrite Nat.add_0_r.
  - unfold Re.is_char. rewrite bool_decide_eq_true_2 by reflexivity.
    rewrite IH. f_equal. lia.
Qed.

Lemma run_lits_none bp s i g k :
  ~ bp `prefix_of` s -> Re.run (Re.lits bp) s i g k = None.
Proof.
  revert s i. induction bp as [|c bp IH]; intros s i Hn; simpl.
  - destruct Hn. apply prefix_nil.
  - destruct s as [|x s]; [reflexivity|].
    unfold Re.is_char. case_bool_decide as Hx; [subst x|reflexivity].
    apply IH. intros Hp. apply Hn. by apply prefix_cons.
Qed.

End Literal.

Lemma parse_ordinary k pending s :
  forallb Re.ordinary s = true ->
  Re.parse k (Re.Top pending) s = Some (Re.flush k pending (Re.lits s)).
Proof.
  revert k pending. induction s as [|c s IH]; intros k pending H.
  - reflexivity.
  - simpl in H. apply andb_prop in H as [Hc Hs].
    cbn [Re.parse]. rewrite Hc. by rewrite IH.
Qed.

Lemma fragment_ordinary bp :
  forallb Re.ordinary bp = true -> Re.fragment bp = Some (Re.lits bp).
Proof. intros H. unfold Re.fragment. by rewrite parse_ordinary. Qed.

Lemma match_len_lits bp s :
  Re.match_len (Re.lits bp) s
  = if bool_decide (bp `prefix_of` s) then Some (length bp) else None.
Proof.
  unfold Re.match_len. case_bool_decide as Hp.
  - destruct Hp as [rest ->]. by rewrite run_lits_app.
  - by apply run_lits_none.
Qed.

(** ** Counting occurrences *)

Lemma occurrences_app_le bp a x :
  occurrences bp a <= occurrences bp (a ++ x).
Proof.
  induction a as [|c a IH]; simpl.
  - case_bool_decide as E; [subst bp|lia].
    destruct x; simpl; lia.
  - assert ((if bool_decide (bp `prefix_of` c :: a) then 1 else 0)
            <= (if bool_decide (bp `prefix_of` c :: a ++ x) then 1 else 0)).
    { case_bool_decide as E; [|lia].
      rewrite bool_decide_eq_true_2; [lia|].
      change (c :: a ++ x) with ((c :: a) ++ x). by apply prefix_app_r. }
    lia.
Qed.

Lemma occurrences_suffix_le bp a b :
  occurrences bp b <= occurrences bp (a ++ b).
Proof.
  induction a as [|c a IH]; simpl; [lia|].
  destruct (bool_decide _); lia.
Qed.

Lemma occurrences_at_end bp a : 1 <= occurrences bp (a ++ bp).
Proof.
  transitivity (occurrences bp bp); [|apply occurrences_suffix_le].
  destruct bp as [|c bp]; [simpl; lia|]. cbn [occurrences].
  rewrite bool_decide_eq_true_2 by done. lia.
Qed.

(** When the marker occurs once in [pre ++ bp], at the end, it begins
    nowhere inside [pre], whatever follows. *)
Lemma first_occurrence bp p1 c p2 rest :
  occurrences bp (p1 ++ c :: p2 ++ bp) = 1 ->
  ~ bp `prefix_of` (c :: p2 ++ bp ++ rest).
Proof.
  intros Hocc Hp.
  pose proof (occurrences_suffix_le bp p1 (c :: p2 ++ bp)) as Hle.
  rewrite Hocc in Hle. cbn [occurrences] in Hle.
  pose proof (occurrences_at_end bp p2) as Hend.
  assert (bp `prefix_of` c :: p2 ++ bp) as Hp'.
  { assert ((c :: p2 ++ bp) `prefix_of` (c :: p2 ++ bp ++ rest)) as H2.
    { exists rest. simpl. by rewrite <- app_assoc. }
    destruct (prefix_weak_total _ _ _ Hp H2) as [H|H]; [assumption|].
    apply prefix_length in H. simpl in H. rewrite length_app in H. lia. }
  rewrite bool_decide_eq_true_2 in Hle by assumption. lia.
Qed.

(** * The search of [cb_story] *)

Section Delimiter.
Context {R : Type}.
Implicit Types (k : pystr -> nat -> Re.spans -> option R).

(** Inside closing text the delimiter matches nowhere. *)
Lemma delimiter_fails_in_closing_text c t rest i g k :
  closing_text (c :: t) = true ->
  Re.run Readmore.delimiter (c :: t ++ rest) i g k = None.
Proof.
  simpl. intros H.
  apply andb_prop in H as [H _]. apply andb_prop in H as [Hnl Hlt].
  unfold Re.is_char.
  destruct (bool_decide (c = newline)); [discriminate|].
  case_bool_decide as Hc; [|reflexivity].
  destruct t as [|x t]; [discriminate|].
  apply bool_decide_eq_true_1 in Hlt. subst x. reflexivity.
Qed.

Lemma star_lazy_through_closing_text (K : pystr -> nat -> option R) t rest i :
  closing_text t = true ->
  (forall c t' j, closing_text (c :: t') = true ->
                  K (c :: t' ++ rest) j = None) ->
  Re.star_lazy Re.dot K (t ++ rest) i
  = Re.star_lazy Re.dot K rest (i + length t).
Proof.
  intros Ht HK. revert i.
  induction t as [|c t IH]; intros i.
  - simpl. by rewrite Nat.add_0_r.
  - change ((c :: t) ++ rest) with (c :: t ++ rest).
    cbn [Re.star_lazy]. rewrite HK by assumption.
    pose proof Ht as Ht'. cbn [closing_text] in Ht'.
    apply andb_prop in Ht' as [Ht' Hrec].
    apply andb_prop in Ht' as [Hnl _].
    unfold Re.dot at 1. rewrite Hnl.
    rewrite IH by assumption. f_equal. simpl. lia.
Qed.

End Delimiter.

Lemma match_at_marker bp subj t post i :
  closing_text t = true ->
  Re.match_at (Readmore.story_pattern (Re.lits bp)) subj
    (bp ++ t ++ newline :: post) i
  = Some (Re.mkMatch subj (i, S (i + length bp + length t))
            (story_groups i (length bp) (length t))).
Proof.
  intros Ht. unfold Re.match_at, Readmore.story_pattern.
  cbn [Re.run]. rewrite run_lits_app.
  rewrite star_lazy_through_closing_text; [|assumption|].
  - cbn [Re.star_lazy]. unfold Readmore.delimiter. cbn [Re.run].
    unfold Re.is_char at 1.
    rewrite (bool_decide_eq_false_2 (newline = "<"%char)) by discriminate.
    unfold Re.is_char at 1.
    rewrite (bool_decide_eq_true_2 (newline = newline)) by reflexivity.
    reflexivity.
  - intros c t' j Hc. by apply delimiter_fails_in_closing_text.
Qed.

Lemma match_at_no_marker bp subj s i :
  ~ bp `prefix_of` s ->
  Re.match_at (Readmore.story_pattern (Re.lits bp)) subj s i = None.
Proof.
  intros Hn. unfold Re.match_at, Readmore.story_pattern.
  cbn [Re.run]. by apply run_lits_none.
Qed.

Lemma search_from_first_marker bp subj p1 pre rest i :
  occurrences bp (p1 ++ pre ++ bp) = 1 ->
  Re.search_from (Readmore.story_pattern (Re.lits bp)) subj
    (pre ++ bp ++ rest) i
  = Re.search_from (Readmore.story_pattern (Re.lits bp)) subj
      (bp ++ rest) (i + length pre).
Proof.
  revert p1 i. induction pre as [|c pre IH]; intros p1 i Hocc.
  - simpl. by rewrite Nat.add_0_r.
  - change ((c :: pre) ++ bp ++ rest) with (c :: pre ++ bp ++ rest).
    cbn [Re.search_from].
    rewrite match_at_no_marker
      by (apply (first_occurrence bp p1); exact Hocc).
    rewrite (IH (p1 ++ [c])).
    + f_equal. simpl. lia.
    + rewrite <- app_assoc. exact Hocc.
Qed.

Lemma search_from_here r subj s i m :
  Re.match_at r subj s i = Some m -> Re.search_from r subj s i = Some m.
Proof. intros H. destruct s; cbn [Re.search_from]; by rewrite H. Qed.

(** The match the search finds when the first marker of the body is
    followed by closing text and the end of the line. *)
Lemma search_first_marker bp pre t post :
  occurrences bp (pre ++ bp) = 1 ->
  closing_text t = true ->
  Re.search (Readmore.story_pattern (Re.lits bp))
    (pre ++ bp ++ t ++ newline :: post)
  = Some (Re.mkMatch (pre ++ bp ++ t ++ newline :: post)
            (length pre, S (length pre + length bp + length t))
            (story_groups (length pre) (length bp) (length t))).
Proof.
  intros Hocc Ht. unfold Re.search.
  rewrite (search_from_first_marker bp _ [] pre) by exact Hocc.
  apply search_from_here. by rewrite match_at_marker.
Qed.

(** * Stripping the markers *)

Lemma sub_scan_skip r repl x s adj :
  Re.sub_scan r repl (x ++ s) (length x) adj = Re.sub_scan r repl s 0 adj.
Proof. induction x as [|c x IH]; [reflexivity|]. simpl. exact IH. Qed.

Lemma stripped_marker_nonempty bp s n r : stripped bp s n r -> bp <> [].
Proof.
  induction 1 as [s H|pre rest n r H _ IH]; [|exact IH].
  intros ->. destruct s; simpl in H; lia.
Qed.

Lemma sub_scan_no_marker bp s adj :
  occurrences bp s = 0 -> Re.sub_scan (Re.lits bp) [] s 0 adj = s.
Proof.
  revert adj. induction s as [|c s IH]; intros adj H.
  - cbn [Re.sub_scan]. rewrite match_len_lits.
    cbn [occurrences] in H.
    case_bool_decide as E; [lia|].
    rewrite bool_decide_eq_false_2; [reflexivity|].
    intros Hp. apply E. by apply prefix_nil_inv.
  - cbn [Re.sub_scan]. rewrite match_len_lits.
    cbn [occurrences] in H.
    case_bool_decide as E; [lia|].
    rewrite IH by lia. reflexivity.
Qed.

Lemma sub_scan_first_marker bp p1 pre rest adj :
  bp <> [] ->
  occurrences bp (p1 ++ pre ++ bp) = 1 ->
  Re.sub_scan (Re.lits bp) [] (pre ++ bp ++ rest) 0 adj
  = pre ++ Re.sub_scan (Re.lits bp) [] rest 0 true.
Proof.
  intros Hne. revert p1 adj.
  induction pre as [|c pre IH]; intros p1 adj Hocc.
  - destruct bp as [|b bp]; [done|].
    change ([] ++ (b :: bp) ++ rest) with (b :: bp ++ rest).
    cbn [Re.sub_scan]. rewrite match_len_lits.
    rewrite bool_decide_eq_true_2 by (by exists rest).
    cbn [length app]. apply sub_scan_skip.
  - change ((c :: pre) ++ bp ++ rest) with (c :: pre ++ bp ++ rest).
    cbn [Re.sub_scan]. rewrite match_len_lits.
    rewrite bool_decide_eq_false_2
      by (apply (first_occurrence bp p1); exact Hocc).
    rewrite (IH (p1 ++ [c])) by (by rewrite <- app_assoc).
    reflexivity.
Qed.

Lemma sub_stripped bp s n r :
  stripped bp s n r -> Re.sub (Re.lits bp) [] s = r.
Proof.
  unfold Re.sub. generalize false as adj. intros adj H. revert adj.
  pose proof (stripped_marker_nonempty _ _ _ _ H) as Hne.
  induction H as [s H|pre rest n r H _ IH]; intros adj.
  - by apply sub_scan_no_marker.
  - rewrite (sub_scan_first_marker bp []) by assumption.
    by rewrite IH.
Qed.

Lemma stripped_length bp s n r :
  stripped bp s n r -> length r + n * length bp = length s.
Proof.
  induction 1 as [s H|pre rest n r H _ IH]; simpl; [lia|].
  rewrite !length_app. lia.
Qed.

(** * Properties of [cb_story] *)

Section StoryFacts.
Import Readmore.

Variable format : pystr -> gmap string pyval -> outcome pystr.

Lemma cb_story_ordinary config data entry bp body :
  configured_breakpoint config = Some bp ->
  forallb Re.ordinary bp = true ->
  entry !! "body" = Some body ->
  cb_story format config data entry
  = Some (split_body format config data (Re.lits bp)
            (configured_template config) body entry).
Proof.
  unfold configured_breakpoint, cb_story, configured_template.
  intros Hbp Hord ->.
  destruct (get config "readmore_breakpoint" (VStr READMORE_BREAKPOINT));
    try discriminate.
  injection Hbp as ->. simpl. by rewrite fragment_ordinary.
Qed.

Lemma split_body_no_match config data rb template text entry :
  Re.search (story_pattern rb) text = None ->
  split_body format config data rb template (VStr text) entry
  = (Return tt, entry).
Proof. unfold split_body, bind, eval. simpl. by intros ->. Qed.

Lemma split_body_single config data rb template text entry :
  is_Some (Re.search (story_pattern rb) text) ->
  single_mode data = true ->
  split_body format config data rb template (VStr text) entry
  = (Return tt, <["body" := VStr (Re.sub rb [] text)]> entry).
Proof.
  unfold split_body, bind, eval, single_mode, item. simpl.
  intros [m ->]. destruct (data !! "bl_type") as [ty|]; [|discriminate].
  by intros ->.
Qed.

Lemma split_body_listing config data rb template text entry m :
  Re.search (story_pattern rb) text = Some m ->
  listing_mode data = true ->
  split_body format config data rb template (VStr text) entry
  = match render_link format config data template entry with
    | (Return link, entry') =>
        (Return tt,
         <["body" := VStr (slice_to text (Re.start m 1) ++ link
                           ++ str (Re.group m 2))]>
           (<["just_summary" := VInt 1]> entry'))
    | (Raise e, entry') => (Raise e, entry')
    end.
Proof.
  unfold split_body, bind, eval, listing_mode, item, modify. simpl.
  intros ->. destruct (data !! "bl_type") as [ty|]; [|discriminate].
  intros H. apply negb_true_iff in H. rewrite H.
  destruct (render_link format config data template entry) as [[link|e] entry'];
    reflexivity.
Qed.

Lemma render_link_no_base_url config data template entry :
  config !! "base_url" = None ->
  render_link format config data template entry
  = (Raise (KeyError "base_url"), entry).
Proof. unfold render_link, bind, eval, item. by intros ->. Qed.

End StoryFacts.

Lemma search_from_none_without_marker bp subj s i :
  occurrences bp s = 0 ->
  Re.search_from (Readmore.story_pattern (Re.lits bp)) subj s i = None.
Proof.
  revert i. induction s as [|c s IH]; intros i H; cbn [occurrences] in H.
  - cbn [Re.search_from]. rewrite match_at_no_marker; [reflexivity|].
    case_bool_decide as E; [lia|]. intros Hp. by apply E, prefix_nil_inv.
  - cbn [Re.search_from]. case_bool_decide as E; [lia|].
    rewrite match_at_no_marker by assumption. apply IH. lia.
Qed.

(** C2 (as amended): in single mode, for a marker without special
    characters, when the pattern search finds a match in the body, the
    body becomes the body without its [n] occurrences of the marker, read
    from the left, and nothing else of the entry changes: no link is
    inserted and no flag is set.  (Without a match the body keeps its
    markers.) *)
Theorem single_mode_strips_markers
    (format : pystr -> gmap string pyval -> outcome pystr)
    (config data entry : gmap string pyval) (bp body r : pystr) (n : nat) :
  configured_breakpoint config = Some bp ->
  forallb Re.ordinary bp = true ->
  entry !! "body" = Some (VStr body) ->
  single_mode data = true ->
  is_Some (Re.search (Readmore.story_pattern (Re.lits bp)) body) ->
  stripped bp body n r ->
  Readmore.cb_story format config data entry
  = Some (Return tt, <["body" := VStr r]> entry)
  /\ length r + n * length bp = length body.
Proof.
  intros Hbp Hord Hbody Hmode Hm Hs. split.
  - rewrite (cb_story_ordinary format _ _ _ bp (VStr body)) by assumption.
    rewrite split_body_single by assumption.
    by rewrite (sub_stripped _ _ _ _ Hs).
  - by apply stripped_length.
Qed.

Lemma single_mode_strips_markers_example :
  stripped (lit "BREAK") two_markers_body 2 two_markers_stripped
  /\ Readmore.cb_story Readmore.format_s example_config file_data
       (entry_of two_markers_body)
     = Some (Return tt,
             <["body" := VStr two_markers_stripped]>
               (entry_of two_markers_body)).
Proof.
  assert (stripped (lit "BREAK") two_markers_body 2 two_markers_stripped)
    as Hs.
  { apply (stripped_next (lit "BREAK") (lit "intro ")
             (newline :: lit "more BREAK end" ++ [newline]) 1
             (newline :: lit "more  end" ++ [newline])); [reflexivity|].
    apply (stripped_next (lit "BREAK") (newline :: lit "more ")
             (lit " end" ++ [newline]) 0 (lit " end" ++ [newline]));
      [reflexivity|].
    apply stripped_none. reflexivity. }
  split; [exact Hs|].
  apply (single_mode_strips_markers Readmore.format_s example_config file_data
           (entry_of two_markers_body) (lit "BREAK") two_markers_body
           two_markers_stripped 2);
    try reflexivity; [|exact Hs].
  vm_compute. eauto.
Defined.

(** C2 (as stated) fails: a body whose marker is followed neither by an
    opening tag nor by a newline keeps the marker in single mode. *)
Lemma single_mode_keeps_unterminated_marker :
  ~ (forall (format : pystr -> gmap string pyval -> outcome pystr)
       (config data entry : gmap string pyval) (bp body r : pystr) (n : nat),
        configured_breakpoint config = Some bp ->
        forallb Re.ordinary bp = true ->
        entry !! "body" = Some (VStr body) ->
        single_mode data = true ->
        1 <= n ->
        stripped bp body n r ->
        Readmore.cb_story format config data entry
        = Some (Return tt, <["body" := VStr r]> entry)).
Proof.
  intros H.
  specialize (H Readmore.format_s ∅ file_data (entry_of (lit "BREAK"))
                (lit "BREAK") (lit "BREAK") [] 1).
  assert (stripped (lit "BREAK") (lit "BREAK") 1 []) as Hs.
  { apply (stripped_next (lit "BREAK") [] [] 0 []); [reflexivity|].
    apply stripped_none. reflexivity. }
  specialize (H eq_refl eq_refl eq_refl eq_refl (le_n 1) Hs).
  apply (f_equal (fun x : option (outcome unit * gmap string pyval) =>
                    match x with
                    | Some (_, e) => e !! "body"
                    | None => None
                    end)) in H.
  vm_compute in H. discriminate H.
Qed.

(** A marker with a special character is stripped as the pattern it
    spells, not as the text it is: of the one marker [a|b] of this body
    the bar stays. *)
Lemma single_mode_marker_read_as_pattern :
  stripped (lit "a|b") (lit "a|b" ++ [newline]) 1 [newline]
  /\ Readmore.cb_story Readmore.format_s alternation_config file_data
       (entry_of (lit "a|b" ++ [newline]))
     = Some (Return tt,
             <["body" := VStr (lit "|" ++ [newline])]>
               (entry_of (lit "a|b" ++ [newline]))).
Proof.
  split; [|vm_compute; reflexivity].
  apply (stripped_next (lit "a|b") [] [newline] 0 [newline]); [reflexivity|].
  apply stripped_none. reflexivity.
Qed.

(** C4: when the pattern search finds no match in the body, whatever the
    compiled breakpoint, the call returns with the entry as it was: the
    body is unchanged and no flag is set.  So it is for a body without the
    marker. *)
Theorem no_match_leaves_entry
    (format : pystr -> gmap string pyval -> outcome pystr)
    (config data entry : gmap string pyval) (body : pystr) :
  entry !! "body" = Some (VStr body) ->
  (forall rb template,
      Re.search (Readmore.story_pattern rb) body = None ->
      Readmore.split_body format config data rb template (VStr body) entry
      = (Return tt, entry))
  /\ (forall bp,
        configured_breakpoint config = Some bp ->
        forallb Re.ordinary bp = true ->
        Re.search (Readmore.story_pattern (Re.lits bp)) body = None ->
        Readmore.cb_story format config data entry = Some (Return tt, entry))
  /\ (forall bp,
        configured_breakpoint config = Some bp ->
        forallb Re.ordinary bp = true ->
        occurrences bp body = 0 ->
        Readmore.cb_story format config data entry = Some (Return tt, entry)).
Proof.
  intros Hbody. split; [|split].
  - intros rb template Hs. by apply split_body_no_match.
  - intros bp Hbp Hord Hs.
    rewrite (cb_story_ordinary format _ _ _ bp (VStr body)) by assumption.
    by rewrite split_body_no_match.
  - intros bp Hbp Hord Hocc.
    rewrite (cb_story_ordinary format _ _ _ bp (VStr body)) by assumption.
    rewrite split_body_no_match; [reflexivity|].
    by apply search_from_none_without_marker.
Qed.

Lemma no_match_leaves_entry_example :
  Re.search (Readmore.story_pattern (Re.lits (lit "BREAK")))
    (lit "a line with BREAK in it") = None
  /\ Readmore.cb_story Readmore.format_s example_config index_data
       (entry_of (lit "a line with BREAK in it"))
     = Some (Return tt, entry_of (lit "a line with BREAK in it")).
Proof.
  split; [reflexivity|].
  destruct (no_match_leaves_entry Readmore.format_s example_config index_data
              (entry_of (lit "a line with BREAK in it"))
              (lit "a line with BREAK in it") eq_refl) as (_ & H & _).
  apply (H (lit "BREAK")); reflexivity.
Defined.

Lemma render_link_reads
    (format : pystr -> gmap string pyval -> outcome pystr)
    (config data : gmap string pyval) (template : pyval)
    (entry : gmap string pyval) :
  (Readmore.render_link format config data template entry).2 = entry.
Proof.
  unfold Readmore.render_link, bind, eval, Readmore.item, Readmore.as_str.
  destruct (config !! "base_url"); [|reflexivity].
  destruct (entry !! "file_path"); [|reflexivity].
  destruct template; reflexivity.
Qed.

Lemma slice_to_prefix (pre rest : pystr) :
  Readmore.slice_to (pre ++ rest) (Z.of_nat (length pre)) = pre.
Proof.
  unfold Readmore.slice_to.
  destruct (Z.ltb_spec (Z.of_nat (length pre)) 0) as [H|_]; [lia|].
  rewrite Nat2Z.id. by rewrite take_app_length.
Qed.

Lemma group_two_is_tail bp pre t rest :
  Re.group
    (Re.mkMatch (pre ++ bp ++ t ++ rest)
       (length pre, S (length pre + length bp + length t))
       (story_groups (length pre) (length bp) (length t))) 2
  = VStr t.
Proof.
  unfold Re.group, story_groups. simpl. f_equal.
  replace (length pre + length bp + length t - (length pre + length bp))
    with (length t) by lia.
  rewrite (app_assoc pre bp), <- length_app, drop_app_length.
  by rewrite take_app_length.
Qed.

(** In listing mode, when the first marker of the body is followed by
    closing text and the end of the line, the body becomes the text before
    the marker, the link and the closing text. *)
Lemma listing_first_marker
    (format : pystr -> gmap string pyval -> outcome pystr)
    (config data entry : gmap string pyval) (bp pre t post link : pystr) :
  configured_breakpoint config = Some bp ->
  forallb Re.ordinary bp = true ->
  entry !! "body" = Some (VStr (pre ++ bp ++ t ++ newline :: post)) ->
  occurrences bp (pre ++ bp) = 1 ->
  closing_text t = true ->
  listing_mode data = true ->
  (Readmore.render_link format config data (configured_template config)
     entry).1 = Return link ->
  Readmore.cb_story format config data entry
  = Some (Return tt,
          <["body" := VStr (pre ++ link ++ t)]>
            (<["just_summary" := VInt 1]> entry)).
Proof.
  intros Hbp Hord Hbody Hocc Ht Hmode Hlink.
  rewrite (cb_story_ordinary format _ _ _ bp _ Hbp Hord Hbody).
  rewrite (split_body_listing format _ _ _ _ _ _ _
             (search_first_marker bp pre t post Hocc Ht) Hmode).
  pose proof (render_link_reads format config data
                (configured_template config) entry) as Hrd.
  destruct (Readmore.render_link format config data
              (configured_template config) entry) as [o e'].
  simpl in Hlink, Hrd. subst o e'.
  rewrite group_two_is_tail.
  unfold Re.start, story_groups. cbn [Re.span_of Re.groups].
  rewrite !bool_decide_eq_false_2 by discriminate.
  rewrite bool_decide_eq_true_2 by reflexivity.
  by rewrite slice_to_prefix.
Qed.

(** X21: in listing mode, for a marker without special characters and a
    body with exactly one marker, followed at once by a newline, the body
    becomes the text before the marker, then the rendered link, then the
    empty remainder, and [just_summary] is set. *)
Theorem listing_marker_then_newline
    (format : pystr -> gmap string pyval -> outcome pystr)
    (config data entry : gmap string pyval) (bp pre post link : pystr) :
  configured_breakpoint config = Some bp ->
  forallb Re.ordinary bp = true ->
  entry !! "body" = Some (VStr (pre ++ bp ++ newline :: post)) ->
  occurrences bp (pre ++ bp ++ newline :: post) = 1 ->
  listing_mode data = true ->
  (Readmore.render_link format config data (configured_template config)
     entry).1 = Return link ->
  Readmore.cb_story format config data entry
  = Some (Return tt,
          <["body" := VStr (pre ++ link ++ [])]>
            (<["just_summary" := VInt 1]> entry)).
Proof.
  intros Hbp Hord Hbody Hocc Hmode Hlink.
  apply (listing_first_marker format config data entry bp pre [] post link);
    try assumption; [|reflexivity].
  pose proof (occurrences_app_le bp (pre ++ bp) (newline :: post)) as Hle.
  rewrite <- app_assoc, Hocc in Hle.
  pose proof (occurrences_at_end bp pre). lia.
Qed.

Lemma listing_marker_then_newline_example :
  Readmore.cb_story Readmore.format_s example_config index_data
    (entry_of (lit "summary" ++ newline :: lit "BREAK" ++ newline
               :: lit "the rest" ++ [newline]))
  = Some (Return tt,
          <["body" := VStr ((lit "summary" ++ [newline]) ++ example_link
                            ++ [])]>
            (<["just_summary" := VInt 1]>
               (entry_of (lit "summary" ++ newline :: lit "BREAK" ++ newline
                          :: lit "the rest" ++ [newline])))).
Proof.
  apply (listing_marker_then_newline Readmore.format_s example_config
           index_data _ (lit "BREAK") (lit "summary" ++ [newline])
           (lit "the rest" ++ [newline]) example_link);
    reflexivity.
Defined.

(** X22: in listing mode, for a marker without special characters, when
    the first marker of the body is followed on its line by closing-tag
    text and then a newline, that text stands in the new body right after
    the inserted link. *)
Theorem listing_keeps_closing_tags
    (format : pystr -> gmap string pyval -> outcome pystr)
    (config data entry : gmap string pyval) (bp pre t post link : pystr) :
  configured_breakpoint config = Some bp ->
  forallb Re.ordinary bp = true ->
  entry !! "body" = Some (VStr (pre ++ bp ++ t ++ newline :: post)) ->
  occurrences bp (pre ++ bp) = 1 ->
  closing_text t = true ->
  listing_mode data = true ->
  (Readmore.render_link format config data (configured_template config)
     entry).1 = Return link ->
  Readmore.cb_story format config data entry
  = Some (Return tt,
          <["body" := VStr (pre ++ link ++ t)]>
            (<["just_summary" := VInt 1]> entry)).
Proof. apply listing_first_marker. Qed.

Lemma listing_keeps_closing_tags_example :
  closing_text (lit "</em></p>") = true
  /\ Readmore.cb_story Readmore.format_s example_config index_data
       (entry_of (lit "<p>summary <em>BREAK</em></p>" ++ newline
                  :: lit "<p>the rest BREAK</p>" ++ [newline]))
     = Some (Return tt,
             <["body" := VStr (lit "<p>summary <em>" ++ example_link
                               ++ lit "</em></p>")]>
               (<["just_summary" := VInt 1]>
                  (entry_of (lit "<p>summary <em>BREAK</em></p>" ++ newline
                             :: lit "<p>the rest BREAK</p>" ++ [newline])))).
Proof.
  split; [reflexivity|].
  apply (listing_keeps_closing_tags Readmore.format_s example_config
           index_data _ (lit "BREAK") (lit "<p>summary <em>")
           (lit "</em></p>") (lit "<p>the rest BREAK</p>" ++ [newline])
           example_link);
    reflexivity.
Defined.

(** C5 (the code at a failing input): the marker [[BREAK]] is read as a
    character class.  A body with exactly one marker, followed at once by
    a newline, is cut at its first letter of the class: the new body is
    the link and the rest of that line, not the text before the marker and
    the link. *)
Theorem listing_marker_read_as_class :
  occurrences (lit "[BREAK]") class_marker_body = 1
  /\ class_marker_body
     = (lit "A story" ++ [newline]) ++ lit "[BREAK]"
       ++ newline :: (lit "more" ++ [newline])
  /\ Readmore.cb_story Readmore.format_s class_marker_config index_data
       (entry_of class_marker_body)
     = Some (Return tt,
             <["body" := VStr (example_link ++ lit " story")]>
               (<["just_summary" := VInt 1]> (entry_of class_marker_body)))
  /\ example_link ++ lit " story"
     <> (lit "A story" ++ [newline]) ++ example_link ++ [].
Proof.
  split; [reflexivity|]. split; [reflexivity|].
  split; [vm_compute; reflexivity|discriminate].
Qed.

(** C6 (the code at a failing input): with the marker [[BREAK]], read as a
    character class, a body whose marker is followed by a closing tag and
    a newline is cut at its first letter of the class, and the closing tag
    is not in the new body. *)
Theorem listing_class_marker_loses_closing_tag :
  occurrences (lit "[BREAK]") (lit "A <p>" ++ lit "[BREAK]") = 1
  /\ closing_text (lit "</p>") = true
  /\ class_marker_tag_body
     = lit "A <p>" ++ lit "[BREAK]" ++ lit "</p>"
       ++ newline :: (lit "more" ++ [newline])
  /\ Readmore.cb_story Readmore.format_s class_marker_config index_data
       (entry_of class_marker_tag_body)
     = Some (Return tt,
             <["body" := VStr (example_link ++ lit " ")]>
               (<["just_summary" := VInt 1]>
                  (entry_of class_marker_tag_body)))
  /\ example_link ++ lit " "
     <> lit "A <p>" ++ example_link ++ lit "</p>".
Proof.
  split; [reflexivity|]. split; [reflexivity|]. split; [reflexivity|].
  split; [vm_compute; reflexivity|discriminate].
Qed.

(** C10: in listing mode, when the pattern matches and the configuration
    has no [base_url], the call raises [KeyError] for that key and the
    entry is as it was: the body unchanged, [just_summary] not set. *)
Theorem listing_without_base_url
    (format : pystr -> gmap string pyval -> outcome pystr)
    (config data entry : gmap string pyval) (body : pystr) :
  entry !! "body" = Some (VStr body) ->
  listing_mode data = true ->
  config !! "base_url" = None ->
  (forall rb template,
      is_Some (Re.search (Readmore.story_pattern rb) body) ->
      Readmore.split_body format config data rb template (VStr body) entry
      = (Raise (KeyError "base_url"), entry))
  /\ (forall bp,
        configured_breakpoint config = Some bp ->
        forallb Re.ordinary bp = true ->
        is_Some (Re.search (Readmore.story_pattern (Re.lits bp)) body) ->
        Readmore.cb_story format config data entry
        = Some (Raise (KeyError "base_url"), entry)).
Proof.
  intros Hbody Hmode Hbase.
  assert (forall rb template,
             is_Some (Re.search (Readmore.story_pattern rb) body) ->
             Readmore.split_body format config data rb template (VStr body)
               entry
             = (Raise (KeyError "base_url"), entry)) as Hsplit.
  { intros rb template [m Hm].
    rewrite (split_body_listing format _ _ _ _ _ _ m Hm Hmode).
    by rewrite render_link_no_base_url. }
  split; [exact Hsplit|].
  intros bp Hbp Hord Hm.
  rewrite (cb_story_ordinary format _ _ _ bp (VStr body)) by assumption.
  by rewrite Hsplit.
Qed.

Lemma listing_without_base_url_example :
  Readmore.cb_story Readmore.format_s ∅ index_data
    (entry_of (lit "summary BREAK" ++ newline :: lit "the rest"))
  = Some (Raise (KeyError "base_url"),
          entry_of (lit "summary BREAK" ++ newline :: lit "the rest")).
Proof.
  refine (proj2 (listing_without_base_url Readmore.format_s ∅ index_data
                   (entry_of (lit "summary BREAK" ++ newline
                              :: lit "the rest"))
                   (lit "summary BREAK" ++ newline :: lit "the rest")
                   _ _ _) (lit "BREAK") _ _ _);
    try reflexivity.
  vm_compute. eauto.
Defined.

(** * Further properties of [EntryBase] *)

(** X1: [has_key] answers true exactly for the keys that [keys()] lists. *)
Theorem has_key_iff_in_keys (key : string) (e : Entries.EntryBase) :
  Entries.has_key key e = true <-> key ∈ Entries.keys e.
Proof.
  unfold Entries.has_key, Entries.keys.
  rewrite elem_of_app, elem_of_map_keys, list_elem_of_singleton.
  case_bool_decide as E.
  - split; [by right|done].
  - rewrite bool_decide_eq_true. split; [by left|].
    intros [H|H]; [assumption|contradiction].
Qed.

(** X2: a value stored under a key other than the reserved one is what the
    item accessor then returns, whatever the default, and [has_key] knows
    the key; every other key reads as before and the content is
    untouched. *)
Theorem setitem_then_getitem (key : string) (value default : pyval)
    (e : Entries.EntryBase) :
  key <> Entries.CONTENT_KEY ->
  Entries.__getitem__ key default (Entries.__setitem__ key value e) = value
  /\ Entries.has_key key (Entries.__setitem__ key value e) = true
  /\ (forall k d, k <> key ->
        Entries.__getitem__ k d (Entries.__setitem__ key value e)
        = Entries.__getitem__ k d e)
  /\ Entries.getData (Entries.__setitem__ key value e) = Entries.getData e.
Proof.
  intros Hk. unfold Entries.__getitem__, Entries.has_key, Entries.__setitem__.
  simpl. rewrite !bool_decide_eq_false_2 by assumption.
  rewrite lookup_insert_eq. split; [reflexivity|].
  split; [by apply bool_decide_eq_true_2|].
  split; [|reflexivity].
  intros k d Hne. by rewrite lookup_insert_ne.
Qed.

Lemma setitem_then_getitem_example :
  Entries.__getitem__ "title" VNone
    (Entries.__setitem__ "title" (VStr (lit "First post")) Entries.__init__)
  = VStr (lit "First post").
Proof.
  apply (setitem_then_getitem "title" (VStr (lit "First post")) VNone
           Entries.__init__).
  discriminate.
Defined.

(** X3: after a delete that succeeded, the item accessor gives the default
    for that key and [has_key] denies it (the reserved key apart); every
    other key reads as before. *)
Theorem delitem_then_getitem (key : string) (default : pyval)
    (e : Entries.EntryBase) :
  (Entries.__delitem__ key e).1 = Return tt ->
  key <> Entries.CONTENT_KEY ->
  Entries.__getitem__ key default (Entries.__delitem__ key e).2 = default
  /\ Entries.has_key key (Entries.__delitem__ key e).2 = false
  /\ (forall k d, k <> key ->
        Entries.__getitem__ k d (Entries.__delitem__ key e).2
        = Entries.__getitem__ k d e).
Proof.
  unfold Entries.__delitem__, Entries.__getitem__, Entries.has_key.
  destruct (Entries._metadata e !! key) as [v|] eqn:E; [|discriminate].
  intros _ Hk. simpl.
  rewrite !bool_decide_eq_false_2 by assumption.
  rewrite lookup_delete_eq. split; [reflexivity|].
  split.
  - apply bool_decide_eq_false_2. by intros [? ?].
  - intros k d Hne. by rewrite lookup_delete_ne.
Qed.

Lemma delitem_then_getitem_example :
  Entries.has_key "title"
    (Entries.__delitem__ "title"
       (Entries.__setitem__ "title" (VStr (lit "First post"))
          Entries.__init__)).2
  = false.
Proof.
  apply (delitem_then_getitem "title" VNone
           (Entries.__setitem__ "title" (VStr (lit "First post"))
              Entries.__init__)).
  - reflexivity.
  - discriminate.
Defined.

(** X4: storing a key the entry did not have and deleting it again gives
    back the entry as it was. *)
Theorem setitem_then_delitem (key : string) (value : pyval)
    (e : Entries.EntryBase) :
  Entries._metadata e !! key = None ->
  Entries.__delitem__ key (Entries.__setitem__ key value e) = (Return tt, e).
Proof.
  intros H. unfold Entries.__delitem__, Entries.__setitem__. simpl.
  rewrite lookup_insert_eq, delete_insert_eq, delete_id by assumption.
  by destruct e.
Qed.

Lemma setitem_then_delitem_example :
  Entries.__delitem__ "content"
    (Entries.__setitem__ "content" (VStr (lit "stale")) Entries.__init__)
  = (Return tt, Entries.__init__).
Proof.
  apply (setitem_then_delitem "content" (VStr (lit "stale")) Entries.__init__).
  reflexivity.
Defined.

(** X5: the content given to [setData] is what the reserved key reads as,
    through [str], after any sequence of metadata writes, a write of the
    reserved key included. *)
Theorem setData_survives_writes
    (strftime : pystr -> list Z -> outcome pystr) (ws : list write)
    (data default : pyval) (e : Entries.EntryBase) :
  Entries.__getitem__ Entries.CONTENT_KEY default
    (apply_writes strftime ws (Entries.setData data e))
  = VStr (str data)
  /\ Entries._metadata (Entries.setData data e) = Entries._metadata e.
Proof.
  split; [|reflexivity].
  unfold Entries.__getitem__. simpl. unfold Entries.getData.
  by rewrite apply_writes_data.
Qed.

(** X6: [has_key] reports the reserved key on every entry, yet deleting it
    raises [KeyError] unless it was stored through the setter. *)
Theorem content_key_known_not_deletable (e : Entries.EntryBase) :
  Entries._metadata e !! Entries.CONTENT_KEY = None ->
  Entries.has_key Entries.CONTENT_KEY e = true
  /\ Entries.__delitem__ Entries.CONTENT_KEY e
     = (Raise (KeyError Entries.CONTENT_KEY), e).
Proof.
  intros H. split; [reflexivity|].
  unfold Entries.__delitem__. by rewrite H.
Qed.

Lemma content_key_known_not_deletable_example :
  Entries.__delitem__ Entries.CONTENT_KEY Entries.__init__
  = (Raise (KeyError Entries.CONTENT_KEY), Entries.__init__).
Proof.
  apply (content_key_known_not_deletable Entries.__init__). reflexivity.
Defined.

(** X7: when [strftime] rejects the tuple at the first format, [setTime]
    raises that exception and the entry has gained the ["timetuple"] key
    and nothing else. *)
Theorem setTime_rejected_keeps_timetuple
    (strftime : pystr -> list Z -> outcome pystr) (t : list Z)
    (e : Entries.EntryBase) (ex : exn) :
  strftime (lit "%H:%M") t = Raise ex ->
  Entries.setTime strftime t e
  = (Raise ex, Entries.__setitem__ "timetuple" (VTuple t) e).
Proof.
  intros H. unfold Entries.setTime, Entries.set_formatted, bind, eval, modify.
  cbv beta iota. by rewrite H.
Qed.

Lemma setTime_rejected_keeps_timetuple_example :
  Entries.setTime (Entries.strftime_C utc) [2004; 13; 1]%Z Entries.__init__
  = (Raise TypeError,
     Entries.__setitem__ "timetuple" (VTuple [2004; 13; 1]%Z)
       Entries.__init__).
Proof.
  apply (setTime_rejected_keeps_timetuple (Entries.strftime_C utc)
           [2004; 13; 1]%Z Entries.__init__ TypeError).
  reflexivity.
Defined.

(** X8: whether [setTime] returns or raises, and wherever it raises, it
    stores the tuple under ["timetuple"], leaves every key other than that
    one and the eight derived ones as it was, and leaves the content. *)
Theorem setTime_frame
    (strftime : pystr -> list Z -> outcome pystr) (t : list Z)
    (e : Entries.EntryBase) :
  Entries._metadata (Entries.setTime strftime t e).2 !! "timetuple"
  = Some (VTuple t)
  /\ (forall k, k <> "timetuple"%string -> k ∉ Entries.derived_keys ->
        Entries._metadata (Entries.setTime strftime t e).2 !! k
        = Entries._metadata e !! k)
  /\ Entries._data (Entries.setTime strftime t e).2 = Entries._data e.
Proof.
  split; [|split; [|apply setTime_data]].
  - unfold Entries.setTime, Entries.set_formatted, bind, eval, modify,
      Entries.__setitem__. simpl.
    repeat match goal with
           | |- context [strftime ?f t] => destruct (strftime f t); simpl
           end;
      by rewrite ?lookup_insert_ne, lookup_insert_eq by discriminate.
  - intros k Hk Hd.
    assert (Forall (fun key => key <> k)
              ("timetuple"%string :: Entries.derived_keys)) as HF.
    { constructor; [by apply not_eq_sym|].
      apply Forall_forall. intros key Hin ->. by apply Hd. }
    unfold Entries.derived_keys in HF. simpl in HF.
    repeat (apply Forall_cons in HF as [? HF]).
    unfold Entries.setTime, Entries.set_formatted, bind, eval, modify,
      Entries.__setitem__. simpl.
    repeat match goal with
           | |- context [strftime ?f t] => destruct (strftime f t); simpl
           end;
      by rewrite !lookup_insert_ne by assumption.
Qed.

(** * Further properties of [cb_story] *)

Lemma as_str_configured_breakpoint (config : gmap string pyval) :
  Readmore.as_str
    (Readmore.get config "readmore_breakpoint"
       (VStr Readmore.READMORE_BREAKPOINT))
  = match configured_breakpoint config with
    | Some bp => Return bp
    | None => Raise TypeError
    end.
Proof.
  unfold configured_breakpoint.
  by destruct (Readmore.get config "readmore_breakpoint" _).
Qed.

Lemma split_body_frame
    (format : pystr -> gmap string pyval -> outcome pystr)
    (config data : gmap string pyval) (rb : Re.regex)
    (template body : pyval) (entry : gmap string pyval) :
  (forall k, k <> "body"%string -> k <> "just_summary"%string ->
     (Readmore.split_body format config data rb template body entry).2 !! k
     = entry !! k)
  /\ (forall ex,
        (Readmore.split_body format config data rb template body entry).1
        = Raise ex ->
        (Readmore.split_body format config data rb template body entry).2
        = entry).
Proof.
  unfold Readmore.split_body, bind, eval, modify, ret.
  destruct (Readmore.as_str body) as [text|e0]; simpl; [|by split].
  destruct (Re.search _ text) as [m|]; [|by split].
  destruct (Readmore.item data "bl_type") as [ty|e1]; simpl; [|by split].
  destruct (pyval_eqb ty _); simpl.
  - split; [|discriminate]. intros k Hb _. by rewrite lookup_insert_ne.
  - pose proof (render_link_reads format config data template entry) as Hr.
    destruct (Readmore.render_link format config data template entry)
      as [[link|e2] e']; simpl in *; subst e'; [|by split].
    split; [|discriminate].
    intros k Hb Hj. by rewrite !lookup_insert_ne.
Qed.

(** X9: for every compiled breakpoint, template and body value, the
    callback from the search on changes no key of the entry other than
    ["body"] and ["just_summary"]; nor does [cb_story], whenever the
    configured breakpoint is pattern source that [Re.fragment] reads. *)
Theorem cb_story_touches_two_keys
    (format : pystr -> gmap string pyval -> outcome pystr)
    (config data entry : gmap string pyval) (k : string) :
  k <> "body"%string -> k <> "just_summary"%string ->
  (forall rb template body,
      (Readmore.split_body format config data rb template body entry).2 !! k
      = entry !! k)
  /\ (forall o entry',
        Readmore.cb_story format config data entry = Some (o, entry') ->
        entry' !! k = entry !! k).
Proof.
  intros Hb Hj. split.
  - intros rb template body.
    by apply (split_body_frame format config data rb template body entry).
  - intros o entry'. unfold Readmore.cb_story.
    destruct (entry !! "body") as [body|] eqn:Eb; [|by intros [= <- <-]].
    destruct (Readmore.as_str _) as [src|e0]; [|by intros [= <- <-]].
    destruct (Re.fragment src) as [rb|]; [|discriminate].
    intros [= H].
    pose proof (split_body_frame format config data rb
                  (Readmore.get config "readmore_template"
                     (VStr Readmore.READMORE_TEMPLATE)) body entry)
      as [Hf _].
    rewrite H in Hf. by apply Hf.
Qed.

Lemma cb_story_touches_two_keys_example :
  (<["body" := VStr (example_link ++ lit " story")]>
     (<["just_summary" := VInt 1]> (entry_of class_marker_body)))
  !! "file_path"
  = entry_of class_marker_body !! "file_path".
Proof.
  refine (proj2 (cb_story_touches_two_keys Readmore.format_s
                   class_marker_config index_data
                   (entry_of class_marker_body) "file_path" _ _)
            (Return tt) _ _);
    [discriminate|discriminate|vm_compute; reflexivity].
Defined.

(** X10: with byte-string values, when the callback raises (a key that is
    missing, a body or template that is not a string, a template the
    formatting operator rejects), the entry is as it was before the call:
    the lookups and the formatting come before the two writes.  This holds
    from the search on for every compiled breakpoint, and for [cb_story]
    whenever [Re.fragment] reads the configured breakpoint. *)
Theorem cb_story_raises_before_writing
    (format : pystr -> gmap string pyval -> outcome pystr)
    (config data entry : gmap string pyval) (ex : exn) :
  (forall rb template body,
      (Readmore.split_body format config data rb template body entry).1
      = Raise ex ->
      (Readmore.split_body format config data rb template body entry).2
      = entry)
  /\ (forall entry',
        Readmore.cb_story format config data entry
        = Some (Raise ex, entry') ->
        entry' = entry).
Proof.
  split.
  - intros rb template body.
    by apply (split_body_frame format config data rb template body entry).
  - intros entry'. unfold Readmore.cb_story.
    destruct (entry !! "body") as [body|] eqn:Eb; [|by intros [= <-]].
    destruct (Readmore.as_str _) as [src|e0]; [|by intros [= <- <-]].
    destruct (Re.fragment src) as [rb|]; [|discriminate].
    intros [= H].
    pose proof (split_body_frame format config data rb
                  (Readmore.get config "readmore_template"
                     (VStr Readmore.READMORE_TEMPLATE)) body entry)
      as [_ Hx].
    rewrite H in Hx. by apply (Hx ex).
Qed.

(** X11: when the entry has a body and the configured breakpoint is not a
    string, [cb_story] raises [TypeError], in either render mode and
    whatever the body is. *)
Theorem breakpoint_not_a_string
    (format : pystr -> gmap string pyval -> outcome pystr)
    (config data entry : gmap string pyval) :
  is_Some (entry !! "body") ->
  configured_breakpoint config = None ->
  Readmore.cb_story format config data entry = Some (Raise TypeError, entry).
Proof.
  intros [body Hb] Hc. unfold Readmore.cb_story. rewrite Hb.
  by rewrite as_str_configured_breakpoint, Hc.
Qed.

Lemma breakpoint_not_a_string_example :
  Readmore.cb_story Readmore.format_s {[ "readmore_breakpoint" := VInt 5 ]}
    file_data (entry_of (lit "anything"))
  = Some (Raise TypeError, entry_of (lit "anything")).
Proof.
  apply (breakpoint_not_a_string Readmore.format_s
           {[ "readmore_breakpoint" := VInt 5 ]} file_data
           (entry_of (lit "anything")));
    [vm_compute; eauto|reflexivity].
Defined.

(** X12: the render mode is looked up only after a match.  When the
    request data has no ["bl_type"], the callback raises [KeyError] for it
    if the pattern matches the body and returns with the entry unchanged
    if it does not: from the search on for every compiled breakpoint, and
    for [cb_story] with a marker without special characters. *)
Theorem bl_type_missing
    (format : pystr -> gmap string pyval -> outcome pystr)
    (config data entry : gmap string pyval) (body : pystr) :
  entry !! "body" = Some (VStr body) ->
  data !! "bl_type" = None ->
  (forall rb template,
      Readmore.split_body format config data rb template (VStr body) entry
      = if bool_decide
             (is_Some (Re.search (Readmore.story_pattern rb) body))
        then (Raise (KeyError "bl_type"), entry)
        else (Return tt, entry))
  /\ (forall bp,
        configured_breakpoint config = Some bp ->
        forallb Re.ordinary bp = true ->
        Readmore.cb_story format config data entry
        = if bool_decide
               (is_Some (Re.search (Readmore.story_pattern (Re.lits bp))
                           body))
          then Some (Raise (KeyError "bl_type"), entry)
          else Some (Return tt, entry)).
Proof.
  intros Hbody Hd.
  assert (forall rb template,
             Readmore.split_body format config data rb template (VStr body)
               entry
             = if bool_decide
                    (is_Some (Re.search (Readmore.story_pattern rb) body))
               then (Raise (KeyError "bl_type"), entry)
               else (Return tt, entry)) as Hsplit.
  { intros rb template.
    unfold Readmore.split_body, bind, eval, ret, Readmore.item. simpl.
    rewrite Hd. destruct (Re.search _ body) as [m|].
    - by rewrite bool_decide_eq_true_2 by eauto.
    - by rewrite bool_decide_eq_false_2 by (by intros [? ?]). }
  split; [exact Hsplit|].
  intros bp Hbp Hord.
  rewrite (cb_story_ordinary format _ _ _ bp (VStr body)) by assumption.
  rewrite Hsplit. by destruct (bool_decide _).
Qed.

Lemma bl_type_missing_example :
  Readmore.cb_story Readmore.format_s example_config ∅
    (entry_of (lit "summary BREAK" ++ [newline]))
  = Some (Raise (KeyError "bl_type"),
          entry_of (lit "summary BREAK" ++ [newline])).
Proof.
  refine (proj2 (bl_type_missing Readmore.format_s example_config ∅
                   (entry_of (lit "summary BREAK" ++ [newline]))
                   (lit "summary BREAK" ++ [newline]) _ _)
            (lit "BREAK") _ _);
    reflexivity.
Defined.

(** X14: in listing mode, with a match, a [base_url] and a [file_path], a
    configured template that is not a string makes the callback raise
    [TypeError], and the entry is not written: from the search on for
    every compiled breakpoint, and for [cb_story] with a marker without
    special characters. *)
Theorem template_not_a_string
    (format : pystr -> gmap string pyval -> outcome pystr)
    (config data entry : gmap string pyval) (body : pystr) :
  entry !! "body" = Some (VStr body) ->
  listing_mode data = true ->
  is_Some (config !! "base_url") ->
  is_Some (entry !! "file_path") ->
  Readmore.as_str (configured_template config) = Raise TypeError ->
  (forall rb,
      is_Some (Re.search (Readmore.story_pattern rb) body) ->
      Readmore.split_body format config data rb (configured_template config)
        (VStr body) entry
      = (Raise TypeError, entry))
  /\ (forall bp,
        configured_breakpoint config = Some bp ->
        forallb Re.ordinary bp = true ->
        is_Some (Re.search (Readmore.story_pattern (Re.lits bp)) body) ->
        Readmore.cb_story format config data entry
        = Some (Raise TypeError, entry)).
Proof.
  intros Hbody Hmode [u Hu] [f Hf] Ht.
  assert (forall rb,
             is_Some (Re.search (Readmore.story_pattern rb) body) ->
             Readmore.split_body format config data rb
               (configured_template config) (VStr body) entry
             = (Raise TypeError, entry)) as Hsplit.
  { intros rb [m Hm].
    rewrite (split_body_listing format _ _ _ _ _ _ m Hm Hmode).
    unfold Readmore.render_link, bind, eval, Readmore.item.
    by rewrite Hu, Hf, Ht. }
  split; [exact Hsplit|].
  intros bp Hbp Hord Hm.
  rewrite (cb_story_ordinary format _ _ _ bp (VStr body)) by assumption.
  by rewrite Hsplit.
Qed.

Lemma template_not_a_string_example :
  Readmore.cb_story Readmore.format_s
    (<["readmore_template" := VNone]> example_config) index_data
    (entry_of (lit "summary BREAK" ++ [newline]))
  = Some (Raise TypeError, entry_of (lit "summary BREAK" ++ [newline])).
Proof.
  refine (proj2 (template_not_a_string Readmore.format_s
                   (<["readmore_template" := VNone]> example_config)
                   index_data
                   (entry_of (lit "summary BREAK" ++ [newline]))
                   (lit "summary BREAK" ++ [newline]) _ _ _ _ _)
            (lit "BREAK") _ _ _);
    try reflexivity; vm_compute; eauto.
Defined.

Lemma split_body_single_any
    (format format' : pystr -> gmap string pyval -> outcome pystr)
    (config config' data : gmap string pyval) (rb : Re.regex)
    (template template' body : pyval) (entry : gmap string pyval) :
  single_mode data = true ->
  Readmore.split_body format config data rb template body entry
  = Readmore.split_body format' config' data rb template' body entry.
Proof.
  unfold single_mode, Readmore.split_body, bind, eval, Readmore.item.
  intros H. destruct (Readmore.as_str body) as [text|]; [|reflexivity].
  destruct (Re.search _ text); [|reflexivity].
  destruct (data !! "bl_type") as [ty|]; [|discriminate].
  by rewrite H.
Qed.

(** X15: in single mode the configuration counts only through its
    breakpoint.  From the search on, for every compiled breakpoint, the
    outcome and the entry are the same whatever the template, the
    [base_url], the other settings and the formatting operator are, and
    ["just_summary"] is not set; so it is for [cb_story] with the same
    configured breakpoint, whenever [Re.fragment] reads it. *)
Theorem single_mode_needs_only_breakpoint
    (format format' : pystr -> gmap string pyval -> outcome pystr)
    (config config' data entry : gmap string pyval) :
  single_mode data = true ->
  configured_breakpoint config = configured_breakpoint config' ->
  (forall rb template template' body,
      Readmore.split_body format config data rb template body entry
      = Readmore.split_body format' config' data rb template' body entry
      /\ (Readmore.split_body format config data rb template body entry).2
         !! "just_summary"
         = entry !! "just_summary")
  /\ Readmore.cb_story format config data entry
     = Readmore.cb_story format' config' data entry
  /\ (forall o entry',
        Readmore.cb_story format config data entry = Some (o, entry') ->
        entry' !! "just_summary" = entry !! "just_summary").
Proof.
  intros Hmode Hbp.
  assert (forall rb template body,
             (Readmore.split_body format config data rb template body
                entry).2 !! "just_summary"
             = entry !! "just_summary") as Hflag.
  { intros rb template body. pose proof Hmode as Hm.
    unfold single_mode in Hm.
    unfold Readmore.split_body, bind, eval, ret, modify, Readmore.item.
    destruct (Readmore.as_str body) as [text|]; [|reflexivity].
    destruct (Re.search _ text); [|reflexivity].
    destruct (data !! "bl_type") as [ty|]; [|discriminate].
    rewrite Hm. simpl. by rewrite lookup_insert_ne. }
  split; [|split].
  - intros rb template template' body.
    split; [by apply split_body_single_any|apply Hflag].
  - unfold Readmore.cb_story.
    destruct (entry !! "body") as [body|]; [|reflexivity].
    rewrite !as_str_configured_breakpoint, Hbp.
    destruct (configured_breakpoint config'); [|reflexivity].
    destruct (Re.fragment _); [|reflexivity].
    f_equal. by apply split_body_single_any.
  - intros o entry'. unfold Readmore.cb_story.
    destruct (entry !! "body") as [body|]; [|by intros [= <- <-]].
    destruct (Readmore.as_str _) as [src|]; [|by intros [= <- <-]].
    destruct (Re.fragment src) as [rb|]; [|discriminate].
    intros [= H].
    pose proof (Hflag rb
                  (Readmore.get config "readmore_template"
                     (VStr Readmore.READMORE_TEMPLATE)) body) as Hf.
    by rewrite H in Hf.
Qed.

Lemma single_mode_needs_only_breakpoint_example :
  Readmore.cb_story Readmore.format_s alternation_config file_data
    (entry_of (lit "a|b" ++ [newline]))
  = Readmore.cb_story (fun _ _ => Raise ValueError)
      {[ "readmore_template" := VNone;
         "readmore_breakpoint" := VStr (lit "a|b") ]} file_data
      (entry_of (lit "a|b" ++ [newline])).
Proof.
  refine (proj1 (proj2 (single_mode_needs_only_breakpoint Readmore.format_s
                          (fun _ _ => Raise ValueError) alternation_config
                          {[ "readmore_template" := VNone;
                             "readmore_breakpoint" := VStr (lit "a|b") ]}
                          file_data (entry_of (lit "a|b" ++ [newline]))
                          _ _)));
    reflexivity.
Defined.

(** ** The opening-tag branch of the delimiter *)






(** ** Bodies the pattern cannot match, and bodies it must match *)

Lemma delimiter_fails_on_unbroken {R : Type} (s : pystr) (i : nat)
    (g : Re.spans) (k : pystr -> nat -> Re.spans -> option R) :
  unbroken s = true -> Re.run Readmore.delimiter s i g k = None.
Proof.
  destruct s as [|c s]; [reflexivity|]. simpl. intros H.
  apply andb_prop in H as [H _]. apply andb_prop in H as [Hn Hl].
  unfold Re.is_char.
  destruct (bool_decide (c = "<"%char)); [discriminate|].
  destruct (bool_decide (c = newline)); [discriminate|]. reflexivity.
Qed.

Lemma star_lazy_fails_on_unbroken {R : Type}
    (K : pystr -> nat -> option R) (s : pystr) (i : nat) :
  unbroken s = true ->
  (forall s' j, unbroken s' = true -> K s' j = None) ->
  Re.star_lazy Re.dot K s i = None.
Proof.
  intros Hs HK. revert i. induction s as [|c s IH]; intros i.
  - cbn [Re.star_lazy]. by rewrite HK.
  - cbn [Re.star_lazy]. rewrite HK by assumption.
    simpl in Hs. apply andb_prop in Hs as [_ Hs].
    destruct (Re.dot c); [by apply IH|reflexivity].
Qed.

Lemma match_at_unbroken bp subj s i :
  unbroken s = true ->
  Re.match_at (Readmore.story_pattern (Re.lits bp)) subj s i = None.
Proof.
  intros Hs.
  destruct (decide (bp `prefix_of` s)) as [[rest ->]|Hn];
    [|by apply match_at_no_marker].
  unfold Re.match_at, Readmore.story_pattern. cbn [Re.run].
  rewrite run_lits_app.
  unfold unbroken in Hs. rewrite forallb_app in Hs.
  apply andb_prop in Hs as [_ Hs].
  apply star_lazy_fails_on_unbroken; [exact Hs|].
  intros s' j Hs'. by apply delimiter_fails_on_unbroken.
Qed.

Lemma search_from_unbroken bp subj s i :
  unbroken s = true ->
  Re.search_from (Readmore.story_pattern (Re.lits bp)) subj s i = None.
Proof.
  revert i. induction s as [|c s IH]; intros i Hs; cbn [Re.search_from];
    rewrite match_at_unbroken by assumption; [reflexivity|].
  simpl in Hs. apply andb_prop in Hs as [_ Hs]. by apply IH.
Qed.

(** X17: for a marker without special characters, a body without a
    newline and without [<] is never split and never stripped, markers or
    not: in either render mode, and even without a ["bl_type"], [cb_story]
    returns with the entry as it was. *)
Theorem unbroken_body_unchanged
    (format : pystr -> gmap string pyval -> outcome pystr)
    (config data entry : gmap string pyval) (bp body : pystr) :
  configured_breakpoint config = Some bp ->
  forallb Re.ordinary bp = true ->
  entry !! "body" = Some (VStr body) ->
  unbroken body = true ->
  Readmore.cb_story format config data entry = Some (Return tt, entry).
Proof.
  intros Hbp Hord Hbody Hu.
  rewrite (cb_story_ordinary format _ _ _ bp (VStr body)) by assumption.
  apply f_equal, split_body_no_match. by apply search_from_unbroken.
Qed.

Lemma unbroken_body_unchanged_example :
  Readmore.cb_story Readmore.format_s example_config file_data
    (entry_of (lit "BREAK one BREAK two BREAK"))
  = Some (Return tt, entry_of (lit "BREAK one BREAK two BREAK")).
Proof.
  apply (unbroken_body_unchanged Readmore.format_s example_config file_data
           (entry_of (lit "BREAK one BREAK two BREAK")) (lit "BREAK")
           (lit "BREAK one BREAK two BREAK"));
    reflexivity.
Defined.

Lemma search_from_marker_then_newline bp subj pre post i :
  is_Some (Re.search_from (Readmore.story_pattern (Re.lits bp)) subj
             (pre ++ bp ++ newline :: post) i).
Proof.
  revert i. induction pre as [|c pre IH]; intros i.
  - simpl app. erewrite search_from_here; [eauto|].
    by apply (match_at_marker bp subj [] post i).
  - change ((c :: pre) ++ bp ++ newline :: post)
      with (c :: pre ++ bp ++ newline :: post).
    cbn [Re.search_from]. destruct (Re.match_at _ _ _ _); [eauto|apply IH].
Qed.

(** X18: for a configured breakpoint without special characters, the
    [break] directive that [cb_start] registers emits, as raw html, the
    breakpoint followed by a newline; and a body with that text anywhere
    in it is one the search of [cb_story] finds a match in. *)
Theorem break_directive_is_found (config : gmap string pyval) (bp : pystr) :
  configured_breakpoint config = Some bp ->
  forallb Re.ordinary bp = true ->
  exists node,
    Readmore.cb_start true config = Some ("break"%string, Return [node])
    /\ Readmore.node_format node = lit "html"
    /\ Readmore.text node = bp ++ [newline]
    /\ forall pre post,
         is_Some (Re.search (Readmore.story_pattern (Re.lits bp))
                    (pre ++ Readmore.text node ++ post)).
Proof.
  intros Hbp _.
  exists (Readmore.mkRaw [] (bp ++ [newline]) (lit "html")).
  split; [|split; [reflexivity|split; [reflexivity|]]].
  - unfold Readmore.cb_start, Readmore.Break_run.
    by rewrite as_str_configured_breakpoint, Hbp.
  - intros pre post. simpl Readmore.text. rewrite <- app_assoc.
    apply search_from_marker_then_newline.
Qed.

Lemma break_directive_is_found_example :
  exists node,
    Readmore.cb_start true ∅ = Some ("break"%string, Return [node])
    /\ Readmore.node_format node = lit "html"
    /\ Readmore.text node = lit "BREAK" ++ [newline]
    /\ forall pre post,
         is_Some (Re.search (Readmore.story_pattern (Re.lits (lit "BREAK")))
                    (pre ++ Readmore.text node ++ post)).
Proof.
  apply (break_directive_is_found ∅ (lit "BREAK")); reflexivity.
Defined.

(** X19: in single mode, for a marker without special characters, a body
    in which some marker is followed at once by a newline has all its [n]
    markers stripped. *)
Theorem single_mode_strips_when_marker_ends_line
    (format : pystr -> gmap string pyval -> outcome pystr)
    (config data entry : gmap string pyval) (bp pre post r : pystr)
    (n : nat) :
  configured_breakpoint config = Some bp ->
  forallb Re.ordinary bp = true ->
  entry !! "body" = Some (VStr (pre ++ bp ++ newline :: post)) ->
  single_mode data = true ->
  stripped bp (pre ++ bp ++ newline :: post) n r ->
  Readmore.cb_story format config data entry
  = Some (Return tt, <["body" := VStr r]> entry).
Proof.
  intros Hbp Hord Hbody Hmode Hs.
  rewrite (cb_story_ordinary format _ _ _ bp _ Hbp Hord Hbody).
  rewrite split_body_single;
    [|apply search_from_marker_then_newline|assumption].
  by rewrite (sub_stripped _ _ _ _ Hs).
Qed.

Lemma single_mode_strips_when_marker_ends_line_example :
  Readmore.cb_story Readmore.format_s example_config file_data
    (entry_of (lit "one BREAK two BREAK" ++ [newline]))
  = Some (Return tt,
          <["body" := VStr (lit "one  two " ++ [newline])]>
            (entry_of (lit "one BREAK two BREAK" ++ [newline]))).
Proof.
  apply (single_mode_strips_when_marker_ends_line Readmore.format_s
           example_config file_data _ (lit "BREAK") (lit "one BREAK two ")
           [] (lit "one  two " ++ [newline]) 2);
    try reflexivity.
  apply (stripped_next (lit "BREAK") (lit "one ")
           (lit " two BREAK" ++ [newline]) 1 (lit " two " ++ [newline]));
    [reflexivity|].
  apply (stripped_next (lit "BREAK") (lit " two ") [newline] 0 [newline]);
    [reflexivity|].
  apply stripped_none. reflexivity.
Defined.

(** * [verify_installation] *)

(** X20: [verify_installation] always answers true; it warns once for each
    of the two optional settings that is missing, and about nothing else:
    whether [base_url], which [cb_story] cannot do without in listing mode,
    is there makes no difference to it. *)
Theorem verify_installation_checks_optional_only
    (config : gmap string pyval) (v : pyval) :
  (Readmore.verify_installation config).2 = true
  /\ length (Readmore.verify_installation config).1
     = (if bool_decide (is_Some (config !! "readmore_template"))
        then 0 else 1)
       + (if bool_decide (is_Some (config !! "readmore_breakpoint"))
          then 0 else 1)
  /\ Readmore.verify_installation (delete "base_url" config)
     = Readmore.verify_installation config
  /\ Readmore.verify_installation (<["base_url" := v]> config)
     = Readmore.verify_installation config.
Proof.
  unfold Readmore.verify_installation. simpl.
  split; [reflexivity|]. split.
  - repeat case_bool_decide; reflexivity.
  - rewrite !lookup_delete_ne, !lookup_insert_ne by discriminate.
    split; reflexivity.
Qed.
